(** * Lift of a 2D airfoil by Bernoulli's equation: a shallow embedding

    The three program variants of the repository
    - v1  [lift-2D-airfoil-Bernoulli-no-uncertainties.c]
    - v2  [lift-2D-airfoil-Bernoulli-temperature-humidity-elevation-uncertain.c]
    - v3  [lift-2D-airfoil-Bernoulli-angle-of-attack-uncertain.c] and its draft
          sibling [lift-2D-airfoil-Bernoulli-pressure-coefficients-uncertain.c]
    are modelled over the real numbers: a C [double] is a [R], [sqrt] is
    [sqrt], [fabs] is [Rabs], [exp] is [exp] and [pow(10.0, x)] is
    [Rpower 10 x].  The output parameters of [loadInputs] are a record that
    the function takes and returns (explicit state passing), so that their
    initial contents stay visible. *)

From Stdlib Require Import Ascii String.
From Stdlib Require Import ZArith Reals Lra Lia List.
Import ListNotations.

Open Scope R_scope.

(** ** The output parameters of [loadInputs] *)

Record out := mkOut {
  o_A : R;
  o_v1 : R;
  o_v2 : R;
  o_r : R;
  o_Cp1 : R;
  o_Cp2 : R
}.

Definition out_zero : out := mkOut 0 0 0 0 0 0.

(** ** The physical formulas shared by all variants *)

(** [double Pair = exp((-9.81 * 0.0289644 * h)/(8.31432 * (T+273.15))) * 101325.0;] *)
Definition Pair (T h : R) : R :=
  exp ((-9.81 * 0.0289644 * h) / (8.31432 * (T + 273.15))) * 101325.0.

(** [double Psat = 6.1078*pow(10.0,7.5*T/(T+237.3));]
    Over [R], [Rpower] does not overflow and [x / 0] is [0]: the model
    follows the C computation only where its doubles stay finite.  For [T]
    between about -243.2 and -237.3 the C [pow] overflows to [inf] (and
    the density becomes NaN), and at [T = -237.3] the exponent is [-inf]. *)
Definition Psat (T : R) : R := 6.1078 * Rpower 10.0 (7.5 * T / (T + 237.3)).

(** [double Pv = Psat*Rh;] *)
Definition Pv (T Rh : R) : R := Psat T * Rh.

(** [double Pd = Pair - Pv;] *)
Definition Pd (T h Rh : R) : R := Pair T h - Pv T Rh.

(** [*r = (Pd/(287.058*(T+273.15)))+(Pv/(461.495*(T+273.15)));] *)
Definition density (T h Rh : R) : R :=
  (Pd T h Rh / (287.058 * (T + 273.15))) + (Pv T Rh / (461.495 * (T + 273.15))).

(** The velocity term of the loop body: [V * sqrt(fabs(1-Cp[i]))]. *)
Definition vterm (V c : R) : R := V * sqrt (Rabs (1 - c)).

(** One iteration of the velocity loop
    [*v1 += V * sqrt(fabs(1-a[i])); *v2 += V * sqrt(fabs(1-b[i]));]
    where [a i] and [b i] are the elements the body reads at index [i]. *)
Definition vbody (V : R) (a b : nat -> R) (st : R * R) (i : nat) : R * R :=
  (fst st + vterm V (a i), snd st + vterm V (b i)).

(** [for (int i = 0; i < n; i++) { ... }] started on the current contents
    [(v1, v2)] of the output parameters. *)
Definition vloop (V : R) (a b : nat -> R) (n : nat) (st : R * R) : R * R :=
  fold_left (vbody V a b) (seq 0 n) st.

(** [liftForce = r*A*(pow(v1, 2)-pow(v2, 2)) / 2.0;] in [main]. *)
Definition liftForce (o : out) : R :=
  o_r o * o_A o * (o_v1 o ^ 2 - o_v2 o ^ 2) / 2.0.

(** Array access [arr[i]] inside the bounds the loops use. *)
Definition at_ (arr : list R) (i : nat) : R := nth i arr 0.

Definition len (arr : list R) : R := INR (length arr).

(** ** The hardcoded coefficient tables of v1 and v2

    The initialisers are copied token for token, with the separating [,] of
    C written [;].  Between [-1.4999] and [-1.4769] the source has no comma:
    C reads the two tokens as the single expression [-1.4999 - 1.4769], and
    so does Rocq's list notation below. *)

(** [double Cp2[]] of v1, [empiricalPressureCoefficientOverAirfoil[]] of v2. *)
Definition Cp2 : list R := [
        -2.3444; -2.4402; -2.5411; -2.577; -2.7322; -2.7316; -2.5977;
        -2.575; -2.5415; -2.3405; -2.3121; -2.2061; -2.1597; -2.0826;
        -1.9988; -1.9037; -1.7997; -1.7692; -1.63; -1.6235; -1.4999
        -1.4769; -1.4098; -1.3809; -1.3528; -1.3367; -1.3181; -1.2695;
        -1.239; -1.1633; -1.1599; -1.0807; -1.0715; -1.0127; -0.9936;
        -0.9336; -0.8987; -0.8544; -0.8222; -0.7642; -0.7355; -0.6851;
        -0.645; -0.6061; -0.5636; -0.538; -0.4927; -0.4825; -0.4468;
        -0.4431; -0.4454; -0.444; -0.4329; -0.4205; -0.4094; -0.3889;
        -0.3636; -0.349; -0.3179; -0.2992; -0.2832; -0.2727; -0.2596;
        -0.2451; -0.2248; -0.2195; -0.2012; -0.1998; -0.1808; -0.1781;
        -0.1831; -0.1885; -0.1837; -0.1769; -0.1889; -0.1865; -0.1799;
        -0.1841; -0.1785; -0.1838; -0.1742; -0.1779; -0.1823; -0.1789
  ].

(** [double Cp1[]] of v1, [empiricalPressureCoefficientUnderAirfoil[]] of v2. *)
Definition Cp1 : list R := [
        0.8111; 0.9226; 1.0007; 0.9934; 0.8905; 0.8737; 0.7471;
        0.7336; 0.714; 0.6252; 0.6152; 0.5857; 0.5611; 0.4833;
        0.429; 0.403; 0.3861; 0.3781; 0.3431; 0.3423; 0.3439;
        0.3448; 0.3393; 0.3353; 0.3354; 0.3368; 0.3345; 0.3272;
        0.3228; 0.3067; 0.3057; 0.2782; 0.275; 0.2539; 0.2432;
        0.2017; 0.1893; 0.2187; 0.2461; 0.2578; 0.2585; 0.2675;
        0.2711; 0.2632; 0.2392; 0.2206; 0.1912; 0.1853; 0.1643;
        0.1539; 0.1427; 0.1439; 0.1585; 0.1679; 0.1675; 0.1579;
        0.1564; 0.159; 0.164; 0.1606; 0.1438; 0.1286; 0.1278;
        0.1299; 0.1214; 0.1199; 0.1316; 0.1322; 0.1217; 0.1134;
        0.1001; 0.102; 0.1118; 0.1173; 0.1216; 0.1122; 0.1017;
        0.1134; 0.1031; 0.1022; 0.1164; 0.1036; 0.1032; 0.1174
  ].

Definition empiricalPressureCoefficientOverAirfoil : list R := Cp2.
Definition empiricalPressureCoefficientUnderAirfoil : list R := Cp1.

(** ** v1: no uncertainties *)

Module V1.

(** [loadInputs(&A, &v1, &v2, &r, &Cp1, &Cp2)] of v1, lines 43-103.
    [sizeof(Cp2)/sizeof(double)] is [length Cp2]. *)
Definition loadInputs (o : out) : out :=
  let V := 30.0 in
  let Rh := 0.0 in
  let h := 0.0 in
  let T := 15.0 in
  let '(v1, v2) :=
    vloop V (at_ Cp1) (at_ Cp2) (length Cp2) (o_v1 o, o_v2 o) in
  let v1 := v1 / len Cp1 in
  let v2 := v2 / len Cp2 in
  mkOut 2.3E-1 v1 v2 (density T h Rh) (o_Cp1 o) (o_Cp2 o).

(** [main]: the locals [A, v1, v2, r, Cp1, Cp2] are passed uninitialised;
    [init] stands for their contents. *)
Definition main (init : out) : R := liftForce (loadInputs init).

End V1.

(** ** v2: temperature, elevation and humidity uncertain

    [Rh], [h] and [T] are drawn by the uncertainty library; the scalar
    reading below takes them as parameters, which is the computation the
    code performs on point (degenerate) values. *)

Module V2.

(** [loadInputs] of v2, lines 53-128 (the [printf] calls are dropped). *)
Definition loadInputs (Rh h T : R) (o : out) : out :=
  let V := 30.0 in
  let '(v1, v2) :=
    vloop V (at_ empiricalPressureCoefficientOverAirfoil)
      (at_ empiricalPressureCoefficientUnderAirfoil)
      (length empiricalPressureCoefficientOverAirfoil) (o_v1 o, o_v2 o) in
  let v1 := v1 / len empiricalPressureCoefficientOverAirfoil in
  let v2 := v2 / len empiricalPressureCoefficientUnderAirfoil in
  mkOut 2.3E-1 v1 v2 (density T h Rh) (o_Cp1 o) (o_Cp2 o).

Definition main (Rh h T : R) (init : out) : R := liftForce (loadInputs Rh h T init).

End V2.

(** ** Uncertain values and the empirical-distribution builder *)

(** The distribution families of the uncertainty library. *)
Inductive UncertainValue :=
| Uniform (low high : R)
| Gaussian (mean stddev : R)
| Empirical (samples : list R).

(** Modelled from the spec: [libUncertainDoubleDistFromMultidimensionalSamples]
    is declared in [uncertain.h], which is not part of [src/].  Following the
    spec (section 4.2), output position [i] is the [Empirical] distribution of
    the [sampleCount] values [samples[0][i] .. samples[sampleCount-1][i]]. *)
Definition libUncertainDoubleDistFromMultidimensionalSamples
    (samples : list (list R)) (sampleCount dimension : nat) : list UncertainValue :=
  map (fun i => Empirical (map (fun s => at_ (nth s samples []) i) (seq 0 sampleCount)))
      (seq 0 dimension).

(** ** v3: angle of attack uncertain *)

Module V3.

(** [enum { sampleCount = 3, row = 140, col = 7, totalLength = (row-1)*2 }] *)
Definition sampleCount : nat := 3.
Definition row : nat := 140.
Definition col : nat := 7.
Definition totalLength : nat := (row - 1) * 2.

(** The table filled by [read_csv]: [data[i][j]] is [data i j]. *)
Definition grid := nat -> nat -> R.

(** [for(int i = 1; i < 140; i++) { arr[i-1] = data[i][j]; }]: the array
    filled from column [j]. *)
Definition column (data : grid) (j : nat) : list R :=
  map (fun i => data i j) (seq 1 (row - 1)).

Definition empricalPressureOver10AOA (data : grid) := column data 1.
Definition empricalPressureOver5AOA (data : grid) := column data 2.
Definition empricalPressureOver0AOA (data : grid) := column data 3.
Definition empricalPressureUnder0AOA (data : grid) := column data 4.
Definition empricalPressureUnder5AOA (data : grid) := column data 5.
Definition empricalPressureUnder10AOA (data : grid) := column data 6.

(** [for (int i = 0; i < totalLength/2; i++)
       { P[i] = over[i]; P[i+row-1] = under[i]; }]
    writes every index of [P] once; index [j] holds [over[j]] below
    [row-1] and [under[j-(row-1)]] from there on. *)
Definition joined (over under : list R) : list R :=
  map (fun j => if (j <? row - 1)%nat then at_ over j else at_ under (j - (row - 1)))
      (seq 0 totalLength).

Definition empricalPressure10AOA (data : grid) :=
  joined (empricalPressureOver10AOA data) (empricalPressureUnder10AOA data).
Definition empricalPressure5AOA (data : grid) :=
  joined (empricalPressureOver5AOA data) (empricalPressureUnder5AOA data).
Definition empricalPressure0AOA (data : grid) :=
  joined (empricalPressureOver0AOA data) (empricalPressureUnder0AOA data).

(** [empiricalPressureCoefficientsUncertain[sampleCount][totalLength]], rows
    filled by the copy loop of lines 148-152. *)
Definition empiricalPressureCoefficientsUncertain (data : grid) : list (list R) :=
  [empricalPressure10AOA data; empricalPressure5AOA data; empricalPressure0AOA data].

(** [empiricalPressureCoefficients] after the builder call, lines 154-160. *)
Definition empiricalPressureCoefficients (data : grid) : list UncertainValue :=
  libUncertainDoubleDistFromMultidimensionalSamples
    (empiricalPressureCoefficientsUncertain data) sampleCount totalLength.

(** The draft sibling [...-pressure-coefficients-uncertain.c] initialises the
    matrix with [{ *empricalPressure10AOA, *empricalPressure5AOA,
    *empricalPressure0AOA }]: three scalars, the first element of each array,
    which brace elision places in [m[0][0]], [m[0][1]], [m[0][2]]; every
    other element is zero-initialised. *)
Definition draftCoefficientsUncertain (data : grid) : list (list R) :=
  [ [at_ (empricalPressure10AOA data) 0; at_ (empricalPressure5AOA data) 0;
     at_ (empricalPressure0AOA data) 0] ++ repeat 0 (totalLength - 3);
    repeat 0 totalLength;
    repeat 0 totalLength ].

Definition draftCoefficients (data : grid) : list UncertainValue :=
  libUncertainDoubleDistFromMultidimensionalSamples
    (draftCoefficientsUncertain data) sampleCount (2 * (row - 1)).

(** The velocity part of v3's [loadInputs], lines 162-173, read on point
    values [E] of [empiricalPressureCoefficients]:
    the loop runs [sizeof(E)/sizeof(double)/2] times, reads [E[i]] and
    [E[row-1+i]], and both sums are divided by [sizeof(E)/sizeof(double)]. *)
Definition loadInputs (E : list R) (o : out) : out :=
  let V := 30.0 in
  let Rh := 0.0 in
  let h := 0.0 in
  let T := 15.0 in
  let '(v1, v2) :=
    vloop V (at_ E) (fun i => at_ E (row - 1 + i)) (length E / 2) (o_v1 o, o_v2 o) in
  let v1 := v1 / len E in
  let v2 := v2 / len E in
  mkOut 2.3E-1 v1 v2 (density T h Rh) (o_Cp1 o) (o_Cp2 o).

(** What a run of [main] does before [read_csv]. *)
Inductive outcome :=
| UsageExit0                   (** prints the usage message, [exit(0)] *)
| Proceed (fname : String.string)  (** copies [argv[1]] into [fname] *)
| StrcpyNull.                  (** [strcpy(fname, argv[1])] with [argv[1] == NULL] *)

(** [if (argc < 1) { printf(...); exit(0); } strcpy(fname, argv[1]);]
    [argv] lists the program name and the arguments; [argv[argc]] is NULL. *)
Definition main_entry (argv : list String.string) : outcome :=
  let argc := Z.of_nat (length argv) in
  if Z.ltb argc 1 then UsageExit0
  else match nth_error argv 1 with
       | Some f => Proceed f
       | None => StrcpyNull
       end.

End V3.

(** ** v3: [read_csv] *)

Module CSV.

Local Open Scope char_scope.
Local Open Scope bool_scope.

Definition NUL : ascii := "000".
Definition NL : ascii := "010".

(** The C string held in a buffer: its characters up to the first NUL. *)
Fixpoint cstr (s : list ascii) : list ascii :=
  match s with
  | [] => []
  | c :: r => if Ascii.eqb c NUL then [] else c :: cstr r
  end.

(** [fgets(line, n, file)]: [None] at end of file; otherwise at most
    [n-1] characters, up to and including a newline. *)
Fixpoint fgets_chunk (k : nat) (s : list ascii) : list ascii * list ascii :=
  match k, s with
  | O, _ => ([], s)
  | _, [] => ([], [])
  | S k', c :: r =>
      if Ascii.eqb c NL then ([c], r)
      else let (a, b) := fgets_chunk k' r in (c :: a, b)
  end.

Definition fgets (n : nat) (s : list ascii) : option (list ascii * list ascii) :=
  match s with
  | [] => None
  | _ => Some (fgets_chunk (n - 1) s)
  end.

(** [strtok]: skip the leading delimiters, return [NULL] at the end of the
    string, otherwise the token up to the next delimiter (overwritten by
    NUL) and the position after it. *)
Definition is_delim (d : list ascii) (c : ascii) : bool := existsb (Ascii.eqb c) d.

Fixpoint skip_delims (d : list ascii) (s : list ascii) : list ascii :=
  match s with
  | [] => []
  | c :: r => if is_delim d c then skip_delims d r else s
  end.

Fixpoint span_token (d : list ascii) (s : list ascii) : list ascii * list ascii :=
  match s with
  | [] => ([], [])
  | c :: r => if is_delim d c then ([], r)
              else let (t, rest) := span_token d r in (c :: t, rest)
  end.

Definition strtok (d : list ascii) (s : list ascii) : option (list ascii * list ascii) :=
  match skip_delims d s with
  | [] => None
  | s' => Some (span_token d s')
  end.

(** The calls [strtok(NULL, ";\n")] after the first one. *)
Fixpoint later_tokens (fuel : nat) (s : list ascii) : list (list ascii) :=
  match fuel with
  | O => []
  | S f => match strtok [";"; NL] s with
           | None => []
           | Some (t, r) => t :: later_tokens f r
           end
  end.

(** [for (tok = strtok(line, ";"); tok && *tok; j++, tok = strtok(NULL, ";\n"))]:
    the tokens of one line.  Replacing [','] by ['.'] inside the current
    token does not change where later tokens start (neither is a
    delimiter), so the tokens are those of the line as read. *)
Definition tokens (line : list ascii) : list (list ascii) :=
  let s := cstr line in
  match strtok [";"] s with
  | None => []
  | Some (t, r) => t :: later_tokens (length s) r
  end.

(** [while(tok[index]!='\0') { if(tok[index]==',') tok[index]='.'; index++; }] *)
Definition normalize (tok : list ascii) : list ascii :=
  map (fun c => if Ascii.eqb c "," then "." else c) tok.

(** [atof] (that is [strtod]) on decimal input: leading white space, an
    optional sign, digits with an optional ['.'] and fraction, an optional
    exponent; no digits at all gives 0.  The value is the exact decimal (the
    real reading of the double).  Hexadecimal, infinity and NaN forms are
    outside this model: [None]. *)
Definition is_space (c : ascii) : bool :=
  existsb (Ascii.eqb c) [" "; "009"; "010"; "011"; "012"; "013"].

Fixpoint skip_space (s : list ascii) : list ascii :=
  match s with
  | c :: r => if is_space c then skip_space r else s
  | [] => []
  end.

Definition digit_val (c : ascii) : option nat :=
  let n := nat_of_ascii c in
  if (48 <=? n)%nat && (n <=? 57)%nat then Some (n - 48)%nat else None.

Fixpoint take_digits (s : list ascii) : list nat * list ascii :=
  match s with
  | c :: r => match digit_val c with
              | Some d => let (ds, rest) := take_digits r in (d :: ds, rest)
              | None => ([], s)
              end
  | [] => ([], [])
  end.

Definition digits_Z (ds : list nat) : Z :=
  fold_left (fun acc d => acc * 10 + Z.of_nat d)%Z ds 0%Z.

Definition take_sign (s : list ascii) : Z * list ascii :=
  match s with
  | c :: r => if Ascii.eqb c "-" then ((-1)%Z, r)
              else if Ascii.eqb c "+" then (1%Z, r) else (1%Z, s)
  | [] => (1%Z, [])
  end.

Definition parse_exp (s : list ascii) : Z :=
  match s with
  | c :: r =>
      if Ascii.eqb c "e" || Ascii.eqb c "E" then
        let (sg, r') := take_sign r in
        match take_digits r' with
        | ([], _) => 0%Z
        | (ds, _) => (sg * digits_Z ds)%Z
        end
      else 0%Z
  | [] => 0%Z
  end.

Definition unmodelled (s : list ascii) : bool :=
  match s with
  | c :: r =>
      existsb (Ascii.eqb c) ["i"; "I"; "n"; "N"] ||
      (Ascii.eqb c "0" && match r with
                           | c2 :: _ => Ascii.eqb c2 "x" || Ascii.eqb c2 "X"
                           | [] => false
                           end)
  | [] => false
  end.

Definition atof (tok : list ascii) : option R :=
  let (sg, s2) := take_sign (skip_space (cstr tok)) in
  if unmodelled s2 then None else
  let (ip, s3) := take_digits s2 in
  let (fp, s4) := match s3 with
                  | c :: r => if Ascii.eqb c "." then take_digits r else ([], s3)
                  | [] => ([], [])
                  end in
  match ip, fp with
  | [], [] => Some 0
  | _, _ => Some (IZR sg * (IZR (digits_Z (ip ++ fp)) / 10 ^ length fp)
                  * powerRZ 10 (parse_exp s4))
  end.

(** What [read_csv] leaves behind. *)
Inductive csv_result :=
| Ok (data : V3.grid)
| NullStream                (** [fopen] failed: [fgets] on a NULL stream *)
| OutOfBounds (i j : nat)   (** [data[i][j] = ...] past the [col] doubles [main] allocated *)
| Unparsed (i j : nat).     (** a number form outside the [atof] model *)

Definition upd (g : V3.grid) (i j : nat) (v : R) : V3.grid :=
  fun a b => if (a =? i)%nat && (b =? j)%nat then v else g a b.

(** The token loop of line [i]: [data[i][j] = atof(tok)] for [j = 0, 1, ...];
    [read_csv] does not compare [j] with [col], the row [main] allocated
    holds [V3.col] doubles. *)
Fixpoint store_row (i j : nat) (toks : list (list ascii)) (g : V3.grid) : csv_result :=
  match toks with
  | [] => Ok g
  | t :: ts =>
      if (V3.col <=? j)%nat then OutOfBounds i j
      else match atof (normalize t) with
           | None => Unparsed i j
           | Some v => store_row i (S j) ts (upd g i j v)
           end
  end.

(** [while (fgets(line, 4098, file) && (i < row)) { ...; i++; }] *)
Fixpoint read_lines (fuel row i : nat) (file : list ascii) (g : V3.grid) : csv_result :=
  match fuel with
  | O => Ok g
  | S f =>
      match fgets 4098 file with
      | None => Ok g
      | Some (line, rest) =>
          if (i <? row)%nat then
            match store_row i 0 (tokens line) g with
            | Ok g' => read_lines f row (S i) rest g'
            | e => e
            end
          else Ok g
      end
  end.

(** [read_csv(row, col, filename, data)]: [file] is the content of the named
    file, [None] when [fopen] fails; [col] is not used by the code. *)
Definition read_csv (row col : nat) (file : option (list ascii)) (data : V3.grid) : csv_result :=
  match file with
  | None => NullStream
  | Some s => read_lines (S (length s)) row 0 s data
  end.

End CSV.

(** ** Specification-side definitions *)

(** The spec's formulas for the air density, with the constants [g], [M] and
    [R] as parameters (section 4.3, steps 1-4). *)
Definition density_spec (g M Rgas T h Rh : R) : R :=
  let P_air := 101325 * exp (- (g * M * h) / (Rgas * (T + 273.15))) in
  let P_sat := 6.1078 * Rpower 10 (7.5 * T / (T + 237.3)) in
  let P_vapor := P_sat * Rh in
  let P_dry := P_air - P_vapor in
  P_dry / (287.058 * (T + 273.15)) + P_vapor / (461.495 * (T + 273.15)).

Definition sumL (l : list R) : R := fold_right Rplus 0 l.

(** The spec's surface velocity: the average of [V * sqrt(|1 - Cp_i|)] over
    the positions [cs] of one surface. *)
Definition spec_average (V : R) (cs : list R) : R :=
  sumL (map (vterm V) cs) / len cs.

(** The lift for one pair of coefficients: the loop body's velocity terms
    fed to [main]'s formula. *)
Definition lift_pair (r A V cp_over cp_under : R) : R :=
  liftForce (mkOut A (vterm V cp_over) (vterm V cp_under) r 0 0).

(** ** Lemmas on the velocity loop *)

Lemma vloop_sums_gen (V : R) (a b : nat -> R) (l : list nat) (x y : R) :
  fold_left (vbody V a b) l (x, y) =
  (x + sumL (map (fun i => vterm V (a i)) l), y + sumL (map (fun i => vterm V (b i)) l)).
Proof.
  revert x y; induction l as [|i l IH]; intros x y; simpl.
  - f_equal; ring.
  - unfold vbody at 2; simpl. rewrite IH. f_equal; ring.
Qed.

Lemma vloop_sums (V : R) (a b : nat -> R) (n : nat) (x y : R) :
  vloop V a b n (x, y) =
  (x + sumL (map (fun i => vterm V (a i)) (seq 0 n)),
   y + sumL (map (fun i => vterm V (b i)) (seq 0 n))).
Proof. apply vloop_sums_gen. Qed.

Lemma sumL_const (c : R) (l : list nat) :
  sumL (map (fun _ => c) l) = INR (length l) * c.
Proof.
  induction l as [|i l IH]; simpl.
  - ring.
  - rewrite IH. destruct (length l); simpl; ring.
Qed.

Lemma sumL_repeat (c : R) (n : nat) : sumL (repeat c n) = INR n * c.
Proof.
  induction n as [|n IH]; simpl.
  - ring.
  - rewrite IH. destruct n; simpl; ring.
Qed.

Lemma sumL_lower (g : nat -> R) (lo : R) (l : list nat) :
  (forall i, In i l -> lo <= g i) -> INR (length l) * lo <= sumL (map g l).
Proof.
  induction l as [|i l IH]; intros H.
  - simpl; lra.
  - change (INR (length (i :: l))) with (INR (S (length l))).
    change (sumL (map g (i :: l))) with (g i + sumL (map g l)).
    assert (lo <= g i) by (apply H; left; reflexivity).
    assert (INR (length l) * lo <= sumL (map g l)) by (apply IH; intros; apply H; right; assumption).
    rewrite S_INR. lra.
Qed.

Lemma sumL_upper (g : nat -> R) (hi : R) (l : list nat) :
  (forall i, In i l -> g i <= hi) -> sumL (map g l) <= INR (length l) * hi.
Proof.
  induction l as [|i l IH]; intros H.
  - simpl; lra.
  - change (INR (length (i :: l))) with (INR (S (length l))).
    change (sumL (map g (i :: l))) with (g i + sumL (map g l)).
    assert (g i <= hi) by (apply H; left; reflexivity).
    assert (sumL (map g l) <= INR (length l) * hi) by (apply IH; intros; apply H; right; assumption).
    rewrite S_INR. lra.
Qed.

Lemma at_Forall (P : R -> Prop) (l : list R) (i : nat) :
  Forall P l -> (i < length l)%nat -> P (at_ l i).
Proof.
  intros HF Hi. rewrite Forall_forall in HF. apply HF. unfold at_. apply nth_In. exact Hi.
Qed.

Lemma vterm_sq (V c : R) : vterm V c ^ 2 = V ^ 2 * Rabs (1 - c).
Proof.
  unfold vterm. rewrite Rpow_mult_distr, pow2_sqrt by apply Rabs_pos. reflexivity.
Qed.

Lemma vterm_ge (V c : R) : 0 <= V -> c <= 0 -> V <= vterm V c.
Proof.
  intros HV Hc. unfold vterm.
  assert (1 <= sqrt (Rabs (1 - c))).
  { apply Rle_trans with (sqrt 1); [rewrite sqrt_1; lra|].
    apply sqrt_le_1_alt. rewrite Rabs_right; lra. }
  nra.
Qed.

Lemma vterm_le (V c : R) : 0 <= V -> 0 <= c <= 2 -> 0 <= vterm V c <= V.
Proof.
  intros HV Hc. unfold vterm.
  assert (sqrt (Rabs (1 - c)) <= 1).
  { apply Rle_trans with (sqrt 1); [|rewrite sqrt_1; lra].
    apply sqrt_le_1_alt. unfold Rabs; destruct (Rcase_abs (1 - c)); lra. }
  pose proof (sqrt_pos (Rabs (1 - c))). split.
  - apply Rmult_le_pos; assumption.
  - rewrite <- (Rmult_1_r V) at 2. apply Rmult_le_compat_l; assumption.
Qed.

(** ** Claims *)

(** C4.  For all temperatures [T], elevations [h] and humidities [Rh], the
    density computed by [loadInputs] is the spec's
    [P_dry/(287.058*(T+273.15)) + P_vapor/(461.495*(T+273.15))] with
    [P_air = 101325 * exp(-g*M*h/(R*(T+273.15)))],
    [P_sat = 6.1078 * 10^(7.5*T/(T+237.3))], [P_vapor = P_sat * Rh],
    [P_dry = P_air - P_vapor], [M = 0.0289644], [R = 8.31432]; the code's
    gravity constant [g] is [9.81]. *)
Theorem density_matches_spec (T h Rh : R) :
  density T h Rh = density_spec 9.81 0.0289644 8.31432 T h Rh.
Proof.
  unfold density, density_spec, Pd, Pv, Pair, Psat.
  replace (-9.81 * 0.0289644 * h) with (- (9.81 * 0.0289644 * h)) by lra.
  replace 10.0 with 10 by lra.
  replace 101325.0 with 101325 by lra.
  rewrite (Rmult_comm (exp _) 101325). reflexivity.
Qed.

(** C9.  The over-airfoil table [Cp2] of v1 (the same initialiser is v2's
    [empiricalPressureCoefficientOverAirfoil]) lacks the comma between
    [-1.4999] and [-1.4769]: its 21st element is [-1.4999 - 1.4769 = -2.9768],
    it has 83 elements while the under-airfoil table has 84, and the two
    curves the velocity loop reads together have different lengths. *)
Theorem over_table_merged_literal :
  nth 20 Cp2 0 = -1.4999 - 1.4769 /\ nth 20 Cp2 0 = -2.9768 /\
  length Cp2 = 83%nat /\ length Cp1 = 84%nat /\
  length empiricalPressureCoefficientOverAirfoil = 83%nat /\
  length empiricalPressureCoefficientUnderAirfoil = 84%nat /\
  length Cp2 <> length Cp1.
Proof.
  repeat split; try reflexivity.
  - simpl. lra.
  - simpl. discriminate.
Qed.

(** In every variant [loadInputs] adds into [v1] and [v2] with [+=]
    without zeroing them first: each velocity it returns is its value from
    zeroed outputs plus the caller's initial contents divided by the length
    the code divides by (v1: 84 for [v1], 83 for [v2]; v2: 83 for [v1],
    84 for [v2]; v3: the length of the coefficient array). *)
Theorem loadInputs_accumulates_initial (o : out) (Rh h T : R) (E : list R) :
  o_v1 (V1.loadInputs o) = o_v1 (V1.loadInputs out_zero) + o_v1 o / len Cp1 /\
  o_v2 (V1.loadInputs o) = o_v2 (V1.loadInputs out_zero) + o_v2 o / len Cp2 /\
  o_v1 (V2.loadInputs Rh h T o) = o_v1 (V2.loadInputs Rh h T out_zero)
    + o_v1 o / len empiricalPressureCoefficientOverAirfoil /\
  o_v2 (V2.loadInputs Rh h T o) = o_v2 (V2.loadInputs Rh h T out_zero)
    + o_v2 o / len empiricalPressureCoefficientUnderAirfoil /\
  o_v1 (V3.loadInputs E o) = o_v1 (V3.loadInputs E out_zero) + o_v1 o / len E /\
  o_v2 (V3.loadInputs E o) = o_v2 (V3.loadInputs E out_zero) + o_v2 o / len E.
Proof.
  cbv beta zeta delta [V1.loadInputs V2.loadInputs V3.loadInputs].
  rewrite !vloop_sums. cbv beta iota. cbn [o_v1 o_v2 out_zero].
  repeat split; unfold Rdiv; ring.
Qed.

Lemma column_at (data : V3.grid) (j k : nat) :
  (k < V3.row - 1)%nat -> at_ (V3.column data j) k = data (S k) j.
Proof.
  intros Hk. unfold at_, V3.column.
  rewrite nth_indep with (d' := (fun i => data i j) 0%nat)
    by (rewrite length_map, length_seq; exact Hk).
  rewrite (map_nth (fun i => data i j)), seq_nth by exact Hk. reflexivity.
Qed.

(** The table whose every cell holds its column number. *)
Definition column_grid : V3.grid := fun _ j => INR j.

(** C7 (as stated, refuted).  Read either as "columns 1..3 are the over
    curves and 4..6 the under curves, each for 10, 5, 0 degrees" or as
    "columns 1..6 alternate over/under for 10, 5, 0 degrees", the layout
    fails at data row 1: the under-surface 10 degree curve comes from
    column 6, and column 2 is the over-surface 5 degree curve. *)
Lemma column_layout_counterexample :
  ~ (forall (data : V3.grid) (i : nat), (1 <= i <= 139)%nat ->
       at_ (V3.empricalPressureOver10AOA data) (i - 1) = data i 1%nat /\
       at_ (V3.empricalPressureOver5AOA data) (i - 1) = data i 2%nat /\
       at_ (V3.empricalPressureOver0AOA data) (i - 1) = data i 3%nat /\
       at_ (V3.empricalPressureUnder10AOA data) (i - 1) = data i 4%nat /\
       at_ (V3.empricalPressureUnder5AOA data) (i - 1) = data i 5%nat /\
       at_ (V3.empricalPressureUnder0AOA data) (i - 1) = data i 6%nat) /\
  ~ (forall (data : V3.grid) (i : nat), (1 <= i <= 139)%nat ->
       at_ (V3.empricalPressureOver10AOA data) (i - 1) = data i 1%nat /\
       at_ (V3.empricalPressureUnder10AOA data) (i - 1) = data i 2%nat /\
       at_ (V3.empricalPressureOver5AOA data) (i - 1) = data i 3%nat /\
       at_ (V3.empricalPressureUnder5AOA data) (i - 1) = data i 4%nat /\
       at_ (V3.empricalPressureOver0AOA data) (i - 1) = data i 5%nat /\
       at_ (V3.empricalPressureUnder0AOA data) (i - 1) = data i 6%nat).
Proof.
  split; intros H; destruct (H column_grid 1%nat) as (_ & Hb & _ & Hc & _);
    try lia; cbn in Hb, Hc; unfold column_grid in Hb, Hc; simpl in Hb, Hc; lra.
Qed.

(** C8 (code defect).  Run without the table path, [argv] is just the
    program name and [argc] is 1: the guard [argc < 1] is false, no usage
    message is printed, and [main] goes on to [strcpy(fname, argv[1])] with
    [argv[1] == NULL].  In no run with a program name is the usage branch
    taken. *)
Theorem missing_path_skips_usage :
  V3.main_entry ["lift"%string] = V3.StrcpyNull /\
  forall (prog : String.string) (args : list String.string),
    V3.main_entry (prog :: args) <> V3.UsageExit0.
Proof.
  split.
  - reflexivity.
  - intros prog args. unfold V3.main_entry.
    assert (Hlt : Z.ltb (Z.of_nat (length (prog :: args))) 1 = false)
      by (apply Z.ltb_ge; simpl length; lia).
    rewrite Hlt. destruct (nth_error (prog :: args) 1); discriminate.
Qed.

Lemma lift_pair_eq (r A V o u : R) :
  lift_pair r A V o u = (r * A * V ^ 2 / 2) * (Rabs (1 - o) - Rabs (1 - u)).
Proof.
  unfold lift_pair, liftForce. cbn [o_r o_A o_v1 o_v2].
  rewrite !vterm_sq. replace 2.0 with 2 by lra. unfold Rdiv. ring.
Qed.

Ltac solve_abs := unfold Rabs; repeat destruct Rcase_abs; lra.

(** C6 (as stated, refuted).  Widening [|Cp_over - Cp_under|] can shrink the
    lift: with density 1, area 0.23 and [V = 30], the pair [(0.5, 0)] gives
    a lift of magnitude 51.75 while the wider pair [(2, 0)] gives 0, since
    [|1 - 2| = |1 - 0|]. *)
Lemma lift_monotonicity_counterexample :
  ~ (forall r A V o u o' u' : R,
       Rabs (o - u) <= Rabs (o' - u') ->
       Rabs (lift_pair r A V o u) <= Rabs (lift_pair r A V o' u')).
Proof.
  intros H.
  specialize (H 1 0.23 30 0.5 0 2 0).
  rewrite !lift_pair_eq in H.
  replace (Rabs (1 - 0.5)) with 0.5 in H by solve_abs.
  replace (Rabs (1 - 0)) with 1 in H by solve_abs.
  replace (Rabs (1 - 2)) with 1 in H by solve_abs.
  replace (1 * 0.23 * 30 ^ 2 / 2 * (0.5 - 1)) with (-51.75) in H by (simpl; lra).
  replace (1 * 0.23 * 30 ^ 2 / 2 * (1 - 1)) with 0 in H by (simpl; lra).
  assert (Rabs (0.5 - 0) <= Rabs (2 - 0)) as Hw by solve_abs.
  specialize (H Hw). revert H. solve_abs.
Qed.

(** C6 (as amended).  When the wider pair [(Cp_over', Cp_under')] lies on
    one side of 1 (both at most 1, or both at least 1), widening
    [|Cp_over - Cp_under|] with density, area and [V] fixed does not
    decrease the magnitude of the lift; the narrower pair may lie anywhere,
    since [||1 - o| - |1 - u|| <= |o - u|]. *)
Theorem lift_monotone_wider_same_side (r A V o u o' u' : R) :
  ((o' <= 1 /\ u' <= 1) \/ (1 <= o' /\ 1 <= u')) ->
  Rabs (o - u) <= Rabs (o' - u') ->
  Rabs (lift_pair r A V o u) <= Rabs (lift_pair r A V o' u').
Proof.
  intros Hside Hw.
  rewrite !lift_pair_eq, !Rabs_mult.
  apply Rmult_le_compat_l; [apply Rabs_pos|].
  assert (Hn : Rabs (Rabs (1 - o) - Rabs (1 - u)) <= Rabs (o - u)).
  { eapply Rle_trans; [apply Rabs_triang_inv2|].
    replace (1 - o - (1 - u)) with (- (o - u)) by ring.
    rewrite Rabs_Ropp. apply Rle_refl. }
  assert (Hw' : Rabs (Rabs (1 - o') - Rabs (1 - u')) = Rabs (o' - u')).
  { destruct Hside as [(H3 & H4) | (H3 & H4)].
    - rewrite (Rabs_right (1 - o')), (Rabs_right (1 - u')) by lra.
      replace (1 - o' - (1 - u')) with (- (o' - u')) by ring.
      apply Rabs_Ropp.
    - rewrite (Rabs_left1 (1 - o')), (Rabs_left1 (1 - u')) by lra.
      replace (- (1 - o') - - (1 - u')) with (o' - u') by ring.
      reflexivity. }
  rewrite Hw'. lra.
Qed.

Lemma lift_monotone_wider_same_side_witness :
  ((3 <= 1 /\ 1.5 <= 1) \/ (1 <= 3 /\ 1 <= 1.5)) /\
  Rabs (0.5 - 0) <= Rabs (3 - 1.5) /\
  Rabs (lift_pair 1 0.23 30 0.5 0) <= Rabs (lift_pair 1 0.23 30 3 1.5).
Proof.
  assert (Hs : (3 <= 1 /\ 1.5 <= 1) \/ (1 <= 3 /\ 1 <= 1.5)) by (right; lra).
  assert (Hw : Rabs (0.5 - 0) <= Rabs (3 - 1.5)) by solve_abs.
  split; [exact Hs|]. split; [exact Hw|].
  exact (lift_monotone_wider_same_side 1 0.23 30 0.5 0 3 1.5 Hs Hw).
Defined.

Lemma at_repeat0 (n i : nat) : at_ (repeat 0 n) i = 0.
Proof.
  unfold at_. destruct (Nat.lt_ge_cases i n).
  - apply nth_repeat.
  - apply nth_overflow. rewrite repeat_length. exact H.
Qed.

Lemma vterm_0 (V : R) : vterm V 0 = V.
Proof. unfold vterm. rewrite Rminus_0_r, Rabs_R1, sqrt_1. ring. Qed.

Lemma INR_lit (n : nat) : INR n = IZR (Z.of_nat n).
Proof. apply INR_IZR_INZ. Qed.

(** The table whose every cell is 0. *)
Definition zero_grid : V3.grid := fun _ _ => 0.

Lemma v3_zero_table_velocities (o : out) :
  o_v1 (V3.loadInputs (repeat 0 V3.totalLength) o) = (o_v1 o + 139 * 30) / 278 /\
  o_v2 (V3.loadInputs (repeat 0 V3.totalLength) o) = (o_v2 o + 139 * 30) / 278.
Proof.
  assert (Hs : forall (g : nat -> nat) (n : nat),
             sumL (map (fun i => vterm 30.0 (at_ (repeat 0 V3.totalLength) (g i))) (seq 0 n))
             = INR n * 30.0).
  { intros g n.
    rewrite (map_ext _ (fun _ => 30.0)) by (intros; rewrite at_repeat0; apply vterm_0).
    rewrite sumL_const, length_seq. reflexivity. }
  cbv beta zeta delta [V3.loadInputs].
  rewrite vloop_sums. cbv beta iota. cbn [o_v1 o_v2].
  rewrite (Hs (fun i => i)), (Hs (fun i => V3.row - 1 + i)%nat).
  unfold len. rewrite repeat_length.
  replace (V3.totalLength / 2)%nat with 139%nat by reflexivity.
  rewrite !INR_lit. unfold V3.totalLength, V3.row. simpl Z.of_nat.
  replace 30.0 with 30 by lra. split; reflexivity.
Qed.

Lemma spec_average_zeros (n : nat) : spec_average 30 (repeat 0 (S n)) = 30.
Proof.
  unfold spec_average, len.
  rewrite map_repeat, vterm_0, sumL_repeat, repeat_length.
  field. apply not_0_INR. discriminate.
Qed.

(** C1 (code defect).  On the all-zero table the builder gives the point
    mass at 0 at each of the 278 positions; v3's loop adds the 139 over
    terms [30 * sqrt(|1 - 0|) = 30] but divides by 278, so [v1] is 15,
    while the average over the over-surface positions is 30 (likewise for
    [v2] and the under surface). *)
Theorem v3_velocity_not_average :
  V3.empiricalPressureCoefficients zero_grid = repeat (Empirical [0; 0; 0]) V3.totalLength /\
  o_v1 (V3.loadInputs (repeat 0 V3.totalLength) out_zero) = 15 /\
  o_v2 (V3.loadInputs (repeat 0 V3.totalLength) out_zero) = 15 /\
  spec_average 30 (firstn (V3.row - 1) (repeat 0 V3.totalLength)) = 30 /\
  spec_average 30 (skipn (V3.row - 1) (repeat 0 V3.totalLength)) = 30.
Proof.
  split; [reflexivity|].
  destruct (v3_zero_table_velocities out_zero) as [H1 H2].
  rewrite H1, H2.
  replace (firstn (V3.row - 1) (repeat 0 V3.totalLength)) with (repeat 0 139) by reflexivity.
  replace (skipn (V3.row - 1) (repeat 0 V3.totalLength)) with (repeat 0 139) by reflexivity.
  rewrite !spec_average_zeros. cbn [o_v1 o_v2 out_zero].
  repeat split; lra.
Qed.

Lemma density_v1_pos : 0 < density 15.0 0.0 0.0.
Proof.
  unfold density, Pd, Pv, Pair.
  replace (-9.81 * 0.0289644 * 0.0) with 0 by lra.
  rewrite Rdiv_0_l, exp_0.
  replace (Psat 15.0 * 0.0) with 0 by lra.
  rewrite Rdiv_0_l, Rplus_0_r.
  apply Rdiv_lt_0_compat; lra.
Qed.

(** C10 (code defect).  v3 divides each velocity sum by 278 although it
    adds 139 terms.  On the all-zero table with [v1] starting at 278,
    [loadInputs] returns [(278 + 139 * 30) / 278 = 16], where the claimed
    value, the over-surface average plus [278 / 278], is 31.  From zeroed
    locals it returns 15 where the average is 30.  The lift [main] prints
    from the returned velocities differs from the one computed from the
    claimed velocities. *)
Theorem accumulate_divisor_slip :
  let o := mkOut 0 278 0 0 0 0 in
  let E := repeat 0 V3.totalLength in
  o_v1 (V3.loadInputs E o) = 16 /\
  spec_average 30 (firstn (V3.row - 1) E) + o_v1 o / len E = 31 /\
  o_v1 (V3.loadInputs E out_zero) = 15 /\
  spec_average 30 (firstn (V3.row - 1) E) = 30 /\
  liftForce (V3.loadInputs E o) <>
    liftForce (mkOut 2.3E-1
                 (spec_average 30 (firstn (V3.row - 1) E) + o_v1 o / len E)
                 (spec_average 30 (skipn (V3.row - 1) E) + o_v2 o / len E)
                 (density 15.0 0.0 0.0) 0 0).
Proof.
  intros o E.
  pose proof density_v1_pos as Hr.
  destruct (v3_zero_table_velocities o) as [H1 H2].
  destruct (v3_zero_table_velocities out_zero) as [H1z _].
  assert (HF : firstn (V3.row - 1) E = repeat 0 139) by reflexivity.
  assert (HS : skipn (V3.row - 1) E = repeat 0 139) by reflexivity.
  assert (HL : len E = 278).
  { unfold len, E. rewrite repeat_length, INR_lit. reflexivity. }
  assert (HrA : o_r (V3.loadInputs E o) = density 15.0 0.0 0.0 /\
                o_A (V3.loadInputs E o) = 2.3E-1).
  { cbv beta zeta delta [V3.loadInputs]. destruct (vloop _ _ _ _ _). split; reflexivity. }
  destruct HrA as [Hr' HA].
  unfold E in *. rewrite HF, HS, HL, !spec_average_zeros, H1, H1z.
  unfold liftForce. rewrite Hr', HA, H1, H2. cbn [o_v1 o_v2 o_r o_A out_zero o].
  repeat split; lra.
Qed.

Lemma joined_at (over under : list R) (j : nat) :
  (j < V3.totalLength)%nat ->
  at_ (V3.joined over under) j =
  if (j <? V3.row - 1)%nat then at_ over j else at_ under (j - (V3.row - 1)).
Proof.
  intros Hj. unfold at_ at 1. unfold V3.joined.
  set (f := fun j => if (j <? V3.row - 1)%nat then at_ over j else at_ under (j - (V3.row - 1))).
  rewrite nth_indep with (d' := f 0%nat) by (rewrite length_map, length_seq; exact Hj).
  rewrite (map_nth f), seq_nth by exact Hj. reflexivity.
Qed.

Lemma builder_at (m : list (list R)) (k dim i : nat) :
  (i < dim)%nat ->
  nth i (libUncertainDoubleDistFromMultidimensionalSamples m k dim) (Empirical []) =
  Empirical (map (fun s => at_ (nth s m []) i) (seq 0 k)).
Proof.
  intros Hi. unfold libUncertainDoubleDistFromMultidimensionalSamples.
  set (f := fun i => Empirical (map (fun s => at_ (nth s m []) i) (seq 0 k))).
  rewrite nth_indep with (d' := f 0%nat) by (rewrite length_map, length_seq; exact Hi).
  rewrite (map_nth f), seq_nth by exact Hi. reflexivity.
Qed.

Lemma builder_at_position (data : V3.grid) (i : nat) :
  (i < V3.totalLength)%nat ->
  nth i (V3.empiricalPressureCoefficients data) (Empirical []) =
  if (i <? V3.row - 1)%nat
  then Empirical [data (S i) 1%nat; data (S i) 2%nat; data (S i) 3%nat]
  else Empirical [data (S (i - (V3.row - 1))) 6%nat; data (S (i - (V3.row - 1))) 5%nat;
                  data (S (i - (V3.row - 1))) 4%nat].
Proof.
  intros Hi. unfold V3.empiricalPressureCoefficients.
  rewrite builder_at by exact Hi.
  cbn [seq map nth V3.empiricalPressureCoefficientsUncertain V3.sampleCount].
  unfold V3.empricalPressure10AOA, V3.empricalPressure5AOA, V3.empricalPressure0AOA.
  rewrite !joined_at by exact Hi.
  destruct (Nat.ltb_spec i (V3.row - 1)) as [Hlt | Hge].
  - unfold V3.empricalPressureOver10AOA, V3.empricalPressureOver5AOA,
      V3.empricalPressureOver0AOA.
    rewrite !column_at by exact Hlt. reflexivity.
  - assert (Hk : (i - (V3.row - 1) < V3.row - 1)%nat)
      by (unfold V3.totalLength, V3.row in *; lia).
    unfold V3.empricalPressureUnder10AOA, V3.empricalPressureUnder5AOA,
      V3.empricalPressureUnder0AOA.
    rewrite !column_at by exact Hk. reflexivity.
Qed.

(** In the angle-of-attack program, position [i] of the builder's output is
    the empirical distribution of the 10, 5 and 0 degree values: over
    surface (columns 1, 2, 3 of row [i+1]) for [i < 139], under surface
    (columns 6, 5, 4 of row [i-138]) for [139 <= i < 278]. *)
Lemma builder_positions (data : V3.grid) (i : nat) :
  (i < V3.totalLength)%nat ->
  nth i (V3.empiricalPressureCoefficients data) (Empirical []) =
  if (i <? V3.row - 1)%nat
  then Empirical [data (S i) 1%nat; data (S i) 2%nat; data (S i) 3%nat]
  else Empirical [data (S (i - (V3.row - 1))) 6%nat; data (S (i - (V3.row - 1))) 5%nat;
                  data (S (i - (V3.row - 1))) 4%nat].
Proof. apply builder_at_position. Qed.

Lemma column_frame (data data' : V3.grid) (j : nat) :
  (1 <= j <= 6)%nat ->
  (forall a b, (1 <= a <= 139)%nat -> (1 <= b <= 6)%nat -> data' a b = data a b) ->
  V3.column data' j = V3.column data j.
Proof.
  intros Hj H. unfold V3.column. apply map_ext_in. intros a Ha.
  apply in_seq in Ha. apply H; [unfold V3.row in Ha; lia | exact Hj].
Qed.

(** C7 (as amended).  For every data row [i] in [1..139], columns 1, 2, 3
    hold the over-surface curves for 10, 5, 0 degrees and columns 4, 5, 6
    hold the under-surface curves for 0, 5, 10 degrees.  They reach the
    builder as its three sample rows 10, 5, 0 degrees: position [i-1] gets
    the samples [data[i][1], data[i][2], data[i][3]] and position
    [138+i] gets [data[i][6], data[i][5], data[i][4]].  Only rows 1..139
    and columns 1..6 are read: two tables that agree there give the same
    builder output, whatever row 0 and column 0 hold. *)
Theorem column_layout (data : V3.grid) (i : nat) :
  (1 <= i <= 139)%nat ->
  at_ (V3.empricalPressureOver10AOA data) (i - 1) = data i 1%nat /\
  at_ (V3.empricalPressureOver5AOA data) (i - 1) = data i 2%nat /\
  at_ (V3.empricalPressureOver0AOA data) (i - 1) = data i 3%nat /\
  at_ (V3.empricalPressureUnder0AOA data) (i - 1) = data i 4%nat /\
  at_ (V3.empricalPressureUnder5AOA data) (i - 1) = data i 5%nat /\
  at_ (V3.empricalPressureUnder10AOA data) (i - 1) = data i 6%nat /\
  nth (i - 1) (V3.empiricalPressureCoefficients data) (Empirical []) =
    Empirical [data i 1%nat; data i 2%nat; data i 3%nat] /\
  nth (V3.row - 1 + (i - 1)) (V3.empiricalPressureCoefficients data) (Empirical []) =
    Empirical [data i 6%nat; data i 5%nat; data i 4%nat] /\
  (forall data' : V3.grid,
     (forall a b, (1 <= a <= 139)%nat -> (1 <= b <= 6)%nat -> data' a b = data a b) ->
     V3.empiricalPressureCoefficients data' = V3.empiricalPressureCoefficients data).
Proof.
  intros Hi.
  assert (Hk : (i - 1 < V3.row - 1)%nat) by (unfold V3.row; lia).
  split; [|split; [|split; [|split; [|split; [|split; [|split; [|split]]]]]]].
  1-6: unfold V3.empricalPressureOver10AOA, V3.empricalPressureOver5AOA,
    V3.empricalPressureOver0AOA, V3.empricalPressureUnder0AOA,
    V3.empricalPressureUnder5AOA, V3.empricalPressureUnder10AOA;
    rewrite column_at by exact Hk; f_equal; lia.
  - rewrite builder_at_position by (unfold V3.totalLength, V3.row in *; lia).
    replace ((i - 1) <? V3.row - 1)%nat with true by (symmetry; apply Nat.ltb_lt; exact Hk).
    replace (S (i - 1)) with i by lia. reflexivity.
  - rewrite builder_at_position by (unfold V3.totalLength, V3.row in *; lia).
    replace ((V3.row - 1 + (i - 1)) <? V3.row - 1)%nat with false
      by (symmetry; apply Nat.ltb_ge; lia).
    replace (S (V3.row - 1 + (i - 1) - (V3.row - 1))) with i by lia. reflexivity.
  - intros data' H.
    unfold V3.empiricalPressureCoefficients, V3.empiricalPressureCoefficientsUncertain,
      V3.empricalPressure10AOA, V3.empricalPressure5AOA, V3.empricalPressure0AOA,
      V3.empricalPressureOver10AOA, V3.empricalPressureOver5AOA,
      V3.empricalPressureOver0AOA, V3.empricalPressureUnder0AOA,
      V3.empricalPressureUnder5AOA, V3.empricalPressureUnder10AOA.
    rewrite (column_frame data data' 1), (column_frame data data' 2),
      (column_frame data data' 3), (column_frame data data' 4),
      (column_frame data data' 5), (column_frame data data' 6) by (exact H || lia).
    reflexivity.
Qed.

(** The table that holds its column number in rows 1..139, columns 1..6,
    and 100 elsewhere. *)
Definition framed_grid : V3.grid :=
  fun a b => if ((1 <=? a) && (a <=? 139) && (1 <=? b) && (b <=? 6))%bool then INR b else 100.

Lemma column_layout_witness :
  (1 <= 1 <= 139)%nat /\
  nth 139 (V3.empiricalPressureCoefficients column_grid) (Empirical []) =
    Empirical [column_grid 1%nat 6%nat; column_grid 1%nat 5%nat; column_grid 1%nat 4%nat] /\
  V3.empiricalPressureCoefficients framed_grid = V3.empiricalPressureCoefficients column_grid.
Proof.
  assert (Hi : (1 <= 1 <= 139)%nat) by lia.
  split; [exact Hi|].
  destruct (column_layout column_grid 1%nat Hi) as (_ & _ & _ & _ & _ & _ & _ & H8 & H9).
  split; [exact H8|].
  apply H9. intros a b Ha Hb. unfold framed_grid, column_grid.
  replace ((1 <=? a) && (a <=? 139) && (1 <=? b) && (b <=? 6))%bool with true; [reflexivity|].
  symmetry. repeat rewrite Bool.andb_true_iff. rewrite !Nat.leb_le. lia.
Defined.

(** C2 (code defect).  The draft sibling
    [...-pressure-coefficients-uncertain.c] hands the builder a matrix whose
    only non-zero entries are [m[0][0..2]]: on the table whose cells hold
    their column number, its position 0 has samples [{1, 0, 0}] and its
    position 1 has [{2, 0, 0}], whereas the three curves hold [1, 2, 3] at
    position 0, as the angle-of-attack program passes them. *)
Theorem draft_builder_mixes_curves :
  nth 0 (V3.draftCoefficients column_grid) (Empirical []) = Empirical [INR 1; 0; 0] /\
  nth 1 (V3.draftCoefficients column_grid) (Empirical []) = Empirical [INR 2; 0; 0] /\
  nth 0 (V3.empiricalPressureCoefficients column_grid) (Empirical []) =
    Empirical [INR 1; INR 2; INR 3] /\
  nth 0 (V3.draftCoefficients column_grid) (Empirical []) <>
    Empirical [at_ (V3.empricalPressure10AOA column_grid) 0;
               at_ (V3.empricalPressure5AOA column_grid) 0;
               at_ (V3.empricalPressure0AOA column_grid) 0].
Proof.
  split; [reflexivity|]. split; [reflexivity|]. split; [reflexivity|].
  change (Empirical [INR 1; 0; 0] <> Empirical [INR 1; INR 2; INR 3]).
  intros H. injection H as H2 _. simpl in H2. lra.
Qed.

Lemma Cp2_nonpos : Forall (fun c => c <= 0) Cp2.
Proof. unfold Cp2. repeat (apply Forall_cons; [lra|]). apply Forall_nil. Qed.

Lemma Cp1_range : Forall (fun c => 0 <= c <= 2) Cp1.
Proof. unfold Cp1. repeat (apply Forall_cons; [split; lra|]). apply Forall_nil. Qed.

Lemma lift_negate (r A x y d : R) : r * A * (x ^ 2 - y ^ 2) / d = - (r * A * (y ^ 2 - x ^ 2) / d).
Proof. unfold Rdiv. ring. Qed.

(** C3 (code defect).  Evaluated on the degenerate inputs [T = 15], [h = 0],
    [Rh = 0] with exact scalar arithmetic, v2's lift is the negation of the
    lift v1 prints, and the two differ: v1 feeds the under-airfoil table to
    [v1] and the over-airfoil table to [v2], v2 does the opposite, and both
    print [r*A*(v1^2 - v2^2)/2]. *)
Theorem v1_v2_lift_opposite :
  V1.main out_zero = - V2.main 0.0 0.0 15.0 out_zero /\
  V1.main out_zero <> V2.main 0.0 0.0 15.0 out_zero.
Proof.
  pose proof density_v1_pos as Hr.
  unfold V1.main, V2.main, liftForce.
  cbv beta zeta delta [V1.loadInputs V2.loadInputs].
  unfold empiricalPressureCoefficientOverAirfoil, empiricalPressureCoefficientUnderAirfoil.
  rewrite !vloop_sums. cbv beta iota. cbn [o_v1 o_v2 o_r o_A out_zero].
  set (SO := sumL (map (fun i => vterm 30.0 (at_ Cp2 i)) (seq 0 (length Cp2)))).
  set (SU := sumL (map (fun i => vterm 30.0 (at_ Cp1 i)) (seq 0 (length Cp2)))).
  assert (Hlen : length (seq 0 (length Cp2)) = 83%nat) by reflexivity.
  assert (HSO : INR 83 * 30.0 <= SO).
  { unfold SO. rewrite <- Hlen. apply sumL_lower. intros i Hi. apply in_seq in Hi.
    apply vterm_ge; [lra|]. apply (at_Forall _ _ _ Cp2_nonpos). lia. }
  assert (HSU : SU <= INR 83 * 30.0).
  { unfold SU. rewrite <- Hlen. apply sumL_upper. intros i Hi. apply in_seq in Hi.
    apply vterm_le; [lra|]. apply (at_Forall _ _ _ Cp1_range).
    change (length Cp1) with 84%nat. change (length Cp2) with 83%nat in Hi. lia. }
  assert (HSU0 : INR 83 * 0 <= SU).
  { unfold SU. rewrite <- Hlen. apply sumL_lower. intros i Hi. apply in_seq in Hi.
    apply vterm_le; [lra|]. apply (at_Forall _ _ _ Cp1_range).
    change (length Cp1) with 84%nat. change (length Cp2) with 83%nat in Hi. lia. }
  unfold len. change (length Cp1) with 84%nat. change (length Cp2) with 83%nat.
  rewrite !INR_lit in *. change (Z.of_nat 83) with 83%Z in *. change (Z.of_nat 84) with 84%Z.
  split; [apply lift_negate|].
  rewrite lift_negate.
  set (o := (0 + SO) / 83). set (u := (0 + SU) / 84).
  assert (Ho : 30 <= o) by (unfold o; apply Rmult_le_reg_r with 83; [lra|];
                          unfold Rdiv; rewrite Rmult_assoc, Rinv_l, Rmult_1_r; lra).
  assert (Hu : 0 <= u <= 30 * 83 / 84) by (unfold u; split; unfold Rdiv;
    apply Rmult_le_reg_r with 84; try lra; rewrite Rmult_assoc, Rinv_l, Rmult_1_r; lra).
  assert (Hpos : 0 < density 15.0 0.0 0.0 * 2.3E-1 * (o ^ 2 - u ^ 2) / 2.0).
  { apply Rdiv_lt_0_compat; [|lra].
    apply Rmult_lt_0_compat; [apply Rmult_lt_0_compat; lra|]. simpl. nra. }
  lra.
Qed.

(** ** Lemmas on [read_csv] *)

Module CSVFacts.

Import CSV.
Local Open Scope char_scope.
Local Open Scope bool_scope.

(** Shapes of input lines. *)

(** A delimiter of the later [strtok(NULL, ";\n")] calls. *)
Definition later_delim (c : ascii) : Prop := c = ";" \/ c = NL.

(** A field: non-empty, without [';'], newline or NUL. *)
Definition field_ok (f : list ascii) : Prop :=
  f <> [] /\ Forall (fun c => c <> ";" /\ c <> NL /\ c <> NUL) f.

(** Fields, each preceded by a run of [';']. *)
Definition seps (rest : list (list ascii * list ascii)) : list ascii :=
  concat (map (fun '(s, f) => s ++ f) rest).

Definition rest_ok (rest : list (list ascii * list ascii)) : Prop :=
  Forall (fun '(s, f) => s <> [] /\ Forall (fun c => c = ";") s /\ field_ok f) rest.

(** The character of a decimal digit. *)
Definition digit_char (d : nat) : ascii := ascii_of_nat (48 + d).

(** A line [fgets(line, 4098, file)] reads whole: it ends with its only
    newline, holds no NUL and fits the buffer. *)
Definition line_ok (line : list ascii) : Prop :=
  exists l, line = l ++ [NL] /\ Forall (fun c => c <> NL /\ c <> NUL) l /\
            (length line <= 4097)%nat.

(** A line whose tokens all parse, to the values [vs], and fit the [col]
    doubles of a row. *)
Definition row_ok (line : list ascii) (vs : list R) : Prop :=
  line_ok line /\ (length vs <= V3.col)%nat /\
  Forall2 (fun t v => atof (normalize t) = Some v) (tokens line) vs.

(** The table [g] with rows [i, i+1, ...] overwritten by the rows of values
    [vals], each as far as it goes. *)
Definition cells_from (i : nat) (vals : list (list R)) (g : V3.grid) : V3.grid :=
  fun a b =>
    if (i <=? a)%nat then
      match nth_error vals (a - i) with
      | Some vs => match nth_error vs b with Some v => v | None => g a b end
      | None => g a b
      end
    else g a b.

(** Lines used by the examples below. *)
Definition line1 : list ascii := ["1"; ","; "5"; ";"; "-"; "2"; NL].
Definition line2 : list ascii := [";"; "3"; NL].
Definition wide_line : list ascii :=
  ["1"; ";"; "2"; ";"; "3"; ";"; "4"; ";"; "5"; ";"; "6"; ";"; "7"; ";"; "8"; NL].

Lemma is_delim_true (d : list ascii) (c : ascii) : is_delim d c = true <-> In c d.
Proof.
  unfold is_delim. rewrite existsb_exists. split.
  - intros (x & Hx & He). apply Ascii.eqb_eq in He. subst. exact Hx.
  - intros H. exists c. split; [exact H|]. apply Ascii.eqb_refl.
Qed.

Lemma is_delim_false (d : list ascii) (c : ascii) : ~ In c d -> is_delim d c = false.
Proof.
  intros H. destruct (is_delim d c) eqn:E; [|reflexivity].
  apply is_delim_true in E. contradiction.
Qed.

Lemma cstr_no_nul (s : list ascii) : Forall (fun c => c <> NUL) s -> cstr s = s.
Proof.
  induction s as [|c s IH]; intros H; [reflexivity|].
  inversion H as [|? ? Hc Hs]; subst. simpl.
  destruct (Ascii.eqb_spec c NUL); [contradiction|]. rewrite IH by exact Hs. reflexivity.
Qed.

Lemma skip_delims_app (d u w : list ascii) :
  Forall (fun c => In c d) u -> skip_delims d (u ++ w) = skip_delims d w.
Proof.
  induction u as [|c u IH]; intros H; [reflexivity|].
  inversion H; subst. simpl. rewrite (proj2 (is_delim_true d c)) by assumption.
  apply IH. assumption.
Qed.

Lemma skip_delims_all (d u : list ascii) :
  Forall (fun c => In c d) u -> skip_delims d u = [].
Proof. intros H. rewrite <- (app_nil_r u). rewrite skip_delims_app by exact H. reflexivity. Qed.

Lemma span_token_field (d f w : list ascii) :
  Forall (fun c => ~ In c d) f ->
  span_token d (f ++ w) = let (t, r) := span_token d w in (f ++ t, r).
Proof.
  induction f as [|c f IH]; intros H; simpl.
  - destruct (span_token d w); reflexivity.
  - inversion H; subst. rewrite is_delim_false by assumption.
    rewrite IH by assumption. destruct (span_token d w); reflexivity.
Qed.

Lemma later_delim_in (c : ascii) : later_delim c -> In c [";"; NL].
Proof. intros [-> | ->]; simpl; auto. Qed.

Lemma field_not_delim (f : list ascii) :
  field_ok f -> Forall (fun c => ~ In c [";"; NL]) f.
Proof.
  intros [_ H]. eapply Forall_impl; [|exact H].
  intros c (H1 & H2 & _) Hin. simpl in Hin. intuition.
Qed.

Lemma skip_delims_field (d f w : list ascii) :
  f <> [] -> Forall (fun c => ~ In c d) f -> skip_delims d (f ++ w) = f ++ w.
Proof.
  destruct f as [|c f]; intros Hne H; [contradiction|].
  inversion H; subst. simpl. rewrite is_delim_false by assumption. reflexivity.
Qed.

Lemma later_tokens_delims (fuel : nat) (w : list ascii) :
  Forall later_delim w -> later_tokens fuel w = [].
Proof.
  intros H. destruct fuel; [reflexivity|]. simpl. unfold strtok.
  rewrite skip_delims_all; [reflexivity|].
  eapply Forall_impl; [|exact H]. apply later_delim_in.
Qed.

Lemma strtok_field (d u f w : list ascii) :
  Forall (fun c => In c d) u -> f <> [] -> Forall (fun c => ~ In c d) f ->
  strtok d (u ++ f ++ w) = Some (span_token d (f ++ w)).
Proof.
  intros Hu Hne Hf. unfold strtok.
  rewrite skip_delims_app, skip_delims_field by assumption.
  destruct f; [contradiction|]. reflexivity.
Qed.

Lemma later_tokens_fields (rest : list (list ascii * list ascii)) :
  forall (fuel : nat) (D f trail : list ascii),
  Forall later_delim D -> field_ok f -> rest_ok rest -> Forall later_delim trail ->
  (length (D ++ f ++ seps rest ++ trail) <= fuel)%nat ->
  later_tokens fuel (D ++ f ++ seps rest ++ trail) = f :: map snd rest.
Proof.
  induction rest as [|[s f'] rest IH]; intros fuel D f trail HD Hf Hr Ht Hlen;
    pose proof (field_not_delim f Hf) as Hnd;
    (destruct fuel as [|fuel];
     [destruct Hf as [Hne _]; destruct f; [contradiction|];
      rewrite !length_app in Hlen; simpl in Hlen; lia|]);
    cbn [later_tokens];
    (rewrite strtok_field;
     [| eapply Forall_impl; [|exact HD]; apply later_delim_in | apply Hf | exact Hnd]).
  - cbn [seps map concat]. rewrite app_nil_l.
    rewrite span_token_field by exact Hnd.
    destruct trail as [|c tr].
    + simpl. rewrite app_nil_r. destruct fuel; reflexivity.
    + inversion Ht as [|? ? Hc Htr]; subst. cbn [span_token].
      rewrite (proj2 (is_delim_true _ c)) by (apply later_delim_in; exact Hc).
      simpl. rewrite app_nil_r. f_equal. apply later_tokens_delims. exact Htr.
  - unfold rest_ok in Hr. inversion Hr as [|? ? H0 Hr']; subst.
    simpl in H0. destruct H0 as (Hsne & Hs & Hf').
    cbn [seps map concat]. rewrite <- !app_assoc.
    rewrite span_token_field by exact Hnd.
    destruct s as [|c s0]; [contradiction|].
    inversion Hs as [|? ? Hc Hs0]; subst. cbn [span_token app].
    rewrite (proj2 (is_delim_true _ ";")) by (simpl; auto).
    simpl. rewrite app_nil_r. f_equal. fold (seps rest).
    apply IH; try assumption.
    + eapply Forall_impl; [|exact Hs0]. intros c Hc. left. exact Hc.
    + cbn [seps map concat] in Hlen. fold (seps rest) in Hlen.
      rewrite !length_app in *. simpl in Hlen. lia.
Qed.

Lemma line_no_nul (lead f : list ascii) (rest : list (list ascii * list ascii)) (trail : list ascii) :
  Forall (fun c => c = ";") lead -> field_ok f -> rest_ok rest -> Forall later_delim trail ->
  Forall (fun c => c <> NUL) (lead ++ f ++ seps rest ++ trail).
Proof.
  intros Hl Hf Hr Ht.
  assert (Hd : forall c, later_delim c -> c <> NUL) by (intros c [-> | ->]; discriminate).
  assert (Hfn : forall f, field_ok f -> Forall (fun c => c <> NUL) f)
    by (intros g [_ Hg]; eapply Forall_impl; [|exact Hg]; intros c (_ & _ & H); exact H).
  apply Forall_app; split; [|apply Forall_app; split; [|apply Forall_app; split]].
  - eapply Forall_impl; [|exact Hl]. intros c ->. discriminate.
  - apply Hfn, Hf.
  - unfold seps. apply Forall_concat. apply Forall_map.
    eapply Forall_impl; [|exact Hr]. intros [s g] (_ & Hs & Hg). apply Forall_app. split.
    + eapply Forall_impl; [|exact Hs]. intros c ->. discriminate.
    + apply Hfn, Hg.
  - eapply Forall_impl; [|exact Ht]. exact Hd.
Qed.

Lemma semi_in (lead : list ascii) :
  Forall (fun c => c = ";") lead -> Forall (fun c => In c [";"]) lead.
Proof. intros H. eapply Forall_impl; [|exact H]. intros c ->. left. reflexivity. Qed.

Lemma field_not_semi (f : list ascii) : field_ok f -> Forall (fun c => ~ In c [";"]) f.
Proof.
  intros [_ H]. eapply Forall_impl; [|exact H].
  intros c (H1 & _) [Hin | []]. congruence.
Qed.

(** The token loop of [read_csv] on a line of two or more fields separated
    by runs of [';'], with leading [';'] and a tail of [';'] and newlines:
    the tokens are exactly the fields, in order.  Empty cells are skipped,
    so later values move left, and the newline is not part of the last
    token. *)
Theorem tokens_fields (lead f : list ascii) (rest : list (list ascii * list ascii))
    (trail : list ascii) :
  Forall (fun c => c = ";") lead -> field_ok f -> rest_ok rest -> rest <> [] ->
  Forall later_delim trail ->
  tokens (lead ++ f ++ seps rest ++ trail) = f :: map snd rest.
Proof.
  intros Hl Hf Hr Hne Ht. unfold tokens.
  rewrite cstr_no_nul by (apply line_no_nul; assumption).
  rewrite strtok_field by (try apply semi_in; try apply Hf; try apply field_not_semi; assumption).
  rewrite span_token_field by (apply field_not_semi; exact Hf).
  destruct rest as [|[s f2] rest]; [contradiction|].
  unfold rest_ok in Hr. inversion Hr as [|? ? H0 Hr']; subst. simpl in H0.
  destruct H0 as (Hsne & Hs & Hf2).
  cbn [seps map concat]. fold (seps rest). rewrite <- !app_assoc.
  destruct s as [|c s0]; [contradiction|].
  inversion Hs as [|? ? Hc Hs0]; subst.
  cbn [span_token app].
  rewrite (proj2 (is_delim_true _ ";")) by (left; reflexivity).
  rewrite app_nil_r. cbn [map snd]. f_equal.
  apply later_tokens_fields; try assumption.
  - eapply Forall_impl; [|exact Hs0]. intros c Hc'. left. exact Hc'.
  - rewrite !length_app. simpl. rewrite !length_app. lia.
Qed.

(** A line holding a single field and its newline gives one token that
    still ends with the newline: the first [strtok] call only splits at
    [';']. *)
Theorem tokens_single_field (lead f : list ascii) :
  Forall (fun c => c = ";") lead -> field_ok f ->
  tokens (lead ++ f ++ [NL]) = [f ++ [NL]].
Proof.
  intros Hl Hf. unfold tokens.
  rewrite cstr_no_nul.
  2:{ pose proof (line_no_nul lead f [] [NL] Hl Hf (Forall_nil _)
        (Forall_cons _ (or_intror eq_refl) (Forall_nil _))) as H. exact H. }
  rewrite strtok_field by (try apply semi_in; try apply Hf; try apply field_not_semi; assumption).
  rewrite span_token_field by (apply field_not_semi; exact Hf).
  change (span_token [";"] [NL]) with ([NL], @nil ascii). cbv beta iota.
  rewrite later_tokens_delims by constructor. reflexivity.
Qed.

Lemma digit_char_facts (d : nat) : (d < 10)%nat ->
  digit_val (digit_char d) = Some d /\ is_space (digit_char d) = false /\
  Ascii.eqb (digit_char d) "," = false /\ Ascii.eqb (digit_char d) NUL = false /\
  Ascii.eqb (digit_char d) "-" = false /\ Ascii.eqb (digit_char d) "+" = false /\
  Ascii.eqb (digit_char d) "x" = false /\ Ascii.eqb (digit_char d) "X" = false /\
  existsb (Ascii.eqb (digit_char d)) ["i"; "I"; "n"; "N"] = false.
Proof.
  intros H. do 10 (destruct d as [|d]; [repeat split; reflexivity|]). lia.
Qed.

Lemma take_digits_digits (ds : list nat) (rest : list ascii) :
  Forall (fun d => (d < 10)%nat) ds ->
  (forall c r, rest = c :: r -> digit_val c = None) ->
  take_digits (map digit_char ds ++ rest) = (ds, rest).
Proof.
  intros Hds Hr. induction Hds as [|d ds Hd Hds IH]; cbn [map app take_digits].
  - destruct rest as [|c r]; [reflexivity|]. cbn [take_digits]. rewrite (Hr c r eq_refl). reflexivity.
  - destruct (digit_char_facts d Hd) as (-> & _). rewrite IH. reflexivity.
Qed.

Lemma normalize_digits (ds : list nat) :
  Forall (fun d => (d < 10)%nat) ds -> normalize (map digit_char ds) = map digit_char ds.
Proof.
  intros H. induction H as [|d ds Hd _ IH]; [reflexivity|].
  cbn [map normalize]. unfold normalize in IH. rewrite IH.
  destruct (digit_char_facts d Hd) as (_ & _ & -> & _). reflexivity.
Qed.

Lemma digits_fold (ds : list nat) (x : Z) :
  fold_left (fun acc d => acc * 10 + Z.of_nat d)%Z ds x =
  (x * 10 ^ Z.of_nat (length ds) + digits_Z ds)%Z.
Proof.
  revert x. induction ds as [|d ds IH]; intros x.
  - unfold digits_Z. simpl. ring.
  - unfold digits_Z. cbn [fold_left length]. rewrite !IH.
    rewrite Nat2Z.inj_succ, Z.pow_succ_r by lia. ring.
Qed.

Lemma digits_Z_app (a b : list nat) :
  digits_Z (a ++ b) = (digits_Z a * 10 ^ Z.of_nat (length b) + digits_Z b)%Z.
Proof. unfold digits_Z at 1. rewrite fold_left_app. apply digits_fold. Qed.

Lemma no_nul_digits (ds : list nat) :
  Forall (fun d => (d < 10)%nat) ds -> Forall (fun c => c <> NUL) (map digit_char ds).
Proof.
  intros H. apply Forall_map. eapply Forall_impl; [|exact H].
  intros d Hd E. destruct (digit_char_facts d Hd) as (_ & _ & _ & Hn & _).
  rewrite E in Hn. discriminate.
Qed.

(** A token written with a decimal comma, an optional minus sign, digits
    [a], [','] and digits [b], and at most a newline after, is read by
    [read_csv] as [a + b / 10^|b|], negated after a minus sign: the comma is
    replaced by ['.'] before [atof]. *)
Theorem atof_decimal_comma (neg : bool) (a b : list nat) (trail : list ascii) :
  Forall (fun d => (d < 10)%nat) (a ++ b) -> trail = [] \/ trail = [NL] ->
  atof (normalize ((if neg then ["-"] else []) ++
                   map digit_char a ++ "," :: map digit_char b ++ trail)) =
  Some ((if neg then -1 else 1) * (IZR (digits_Z a) + IZR (digits_Z b) / 10 ^ length b)).
Proof.
  intros Hd Ht. apply Forall_app in Hd as [Ha Hb].
  set (body := map digit_char a ++ "." :: map digit_char b ++ trail).
  assert (Hn : normalize ((if neg then ["-"] else []) ++
                 map digit_char a ++ "," :: map digit_char b ++ trail)
               = (if neg then ["-"] else []) ++ body).
  { assert (Happ : forall x y, normalize (x ++ y) = normalize x ++ normalize y)
      by (intros; apply map_app).
    assert (Hcomma : forall y, normalize ("," :: y) = "." :: normalize y) by reflexivity.
    unfold body. rewrite !Happ, Hcomma, Happ, !normalize_digits by assumption.
    replace (normalize trail) with trail by (destruct Ht as [-> | ->]; reflexivity).
    destruct neg; reflexivity. }
  assert (Hc : cstr ((if neg then ["-"] else []) ++ body) = (if neg then ["-"] else []) ++ body).
  { apply cstr_no_nul. apply Forall_app. split; [destruct neg; repeat constructor; discriminate|].
    unfold body. apply Forall_app. split; [apply no_nul_digits; exact Ha|].
    constructor; [discriminate|]. apply Forall_app. split; [apply no_nul_digits; exact Hb|].
    destruct Ht as [-> | ->]; repeat constructor; discriminate. }
  assert (Hbody : skip_space body = body /\ take_sign body = (1%Z, body) /\
                  unmodelled body = false).
  { unfold body. destruct a as [|d a]; [repeat split; reflexivity|].
    inversion Ha as [|? ? Hd0 Ha']; subst.
    destruct (digit_char_facts d Hd0) as (_ & Hs & _ & _ & Hm & Hp & _ & _ & Hi).
    cbn [map app skip_space take_sign unmodelled]. rewrite Hs, Hm, Hp, Hi.
    repeat split. cbn [orb].
    destruct (Ascii.eqb (digit_char d) "0"); [|reflexivity]. cbn [andb].
    destruct a as [|d' a]; [reflexivity|].
    inversion Ha' as [|? ? Hd1 _]; subst.
    destruct (digit_char_facts d' Hd1) as (_ & _ & _ & _ & _ & _ & Hx & HX & _).
    cbn [map app]. rewrite Hx, HX. reflexivity. }
  destruct Hbody as (Hsk & Hts & Hum).
  assert (Hsign : take_sign (skip_space (cstr ((if neg then ["-"] else []) ++ body))) =
                  ((if neg then (-1)%Z else 1%Z), body)).
  { rewrite Hc. destruct neg; [reflexivity|]. simpl app. rewrite Hsk. exact Hts. }
  unfold atof. rewrite Hn, Hsign. cbv beta iota. rewrite Hum.
  unfold body at 1.
  rewrite take_digits_digits by (try assumption; intros c r E; injection E as <- _; reflexivity).
  cbv beta iota. rewrite (Ascii.eqb_refl ".").
  rewrite take_digits_digits by (first [assumption | destruct Ht as [-> | ->];
    intros c r E; [discriminate|injection E as <- _; reflexivity]]).
  cbv beta iota.
  replace (parse_exp trail) with 0%Z by (destruct Ht as [-> | ->]; reflexivity).
  assert (Hv : IZR (if neg then (-1)%Z else 1%Z) = if neg then -1 else 1) by (destruct neg; reflexivity).
  assert (Hp : 10 ^ length b <> 0) by (apply pow_nonzero; lra).
  destruct a as [|x a], b as [|y b];
    [ f_equal; unfold digits_Z; simpl; lra | .. ];
    f_equal; rewrite Hv, digits_Z_app, plus_IZR, mult_IZR, <- !pow_IZR;
    simpl powerRZ; field; apply pow_nonzero; lra.
Qed.

Lemma fgets_chunk_line (k : nat) (l rest : list ascii) :
  Forall (fun c => c <> NL) l -> (length l < k)%nat ->
  fgets_chunk k (l ++ NL :: rest) = (l ++ [NL], rest).
Proof.
  revert k. induction l as [|c l IH]; intros k Hl Hk; (destruct k as [|k]; [simpl in Hk; lia|]).
  - reflexivity.
  - inversion Hl as [|? ? Hc Hl']; subst. cbn [app fgets_chunk].
    destruct (Ascii.eqb_spec c NL); [contradiction|].
    rewrite IH by (simpl in Hk; first [exact Hl' | lia]). reflexivity.
Qed.

Lemma fgets_line (line rest : list ascii) :
  line_ok line -> fgets 4098 (line ++ rest) = Some (line, rest).
Proof.
  intros (l & -> & Hl & Hlen). unfold fgets.
  replace ((l ++ [NL]) ++ rest) with (l ++ NL :: rest) by (rewrite <- app_assoc; reflexivity).
  case_eq (l ++ NL :: rest).
  - intros E. symmetry in E. apply app_cons_not_nil in E. contradiction.
  - intros c r E. rewrite <- E. rewrite fgets_chunk_line.
    + reflexivity.
    + eapply Forall_impl; [|exact Hl]. intros x [H _]. exact H.
    + rewrite length_app in Hlen. simpl in Hlen. lia.
Qed.

Lemma store_row_ok (i j : nat) (toks : list (list ascii)) (vs : list R) (g : V3.grid) :
  Forall2 (fun t v => atof (normalize t) = Some v) toks vs ->
  (j + length vs <= V3.col)%nat ->
  exists g', store_row i j toks g = Ok g' /\
    forall a b, g' a b =
      if (a =? i)%nat && (j <=? b)%nat && (b <? j + length vs)%nat then nth (b - j) vs 0
      else g a b.
Proof.
  intros H. revert j g. induction H as [|t v ts vs Htv _ IH]; intros j g Hj.
  - exists g. split; [reflexivity|]. intros a b.
    cbn [length]. destruct (a =? i)%nat, (Nat.leb_spec j b), (Nat.ltb_spec b (j + 0));
      cbn [andb]; try reflexivity; lia.
  - cbn [length] in Hj.
    destruct (IH (S j) (upd g i j v)) as (g' & Hst & Hg'); [lia|].
    exists g'. split.
    + cbn [store_row]. replace (V3.col <=? j)%nat with false by (symmetry; apply Nat.leb_gt; lia).
      rewrite Htv. exact Hst.
    + intros a b. rewrite Hg'. unfold upd. cbn [length].
      destruct (Nat.eqb_spec a i), (Nat.leb_spec (S j) b), (Nat.ltb_spec b (S j + length vs)),
        (Nat.leb_spec j b), (Nat.ltb_spec b (j + S (length vs))), (Nat.eqb_spec b j);
        cbn [andb]; try lia; try reflexivity.
      * subst. replace (b - j)%nat with (S (b - S j)) by lia. reflexivity.
      * subst. rewrite Nat.sub_diag. reflexivity.
Qed.

Lemma store_row_frame (i j : nat) (toks : list (list ascii)) (g g' : V3.grid) (a b : nat) :
  store_row i j toks g = Ok g' -> (a <> i \/ V3.col <= b)%nat -> g' a b = g a b.
Proof.
  revert j g. induction toks as [|t ts IH]; intros j g Hst Hab.
  - injection Hst as <-. reflexivity.
  - cbn [store_row] in Hst.
    destruct (Nat.leb_spec V3.col j); [discriminate|].
    destruct (atof (normalize t)) as [v|]; [|discriminate].
    rewrite (IH _ _ Hst Hab). unfold upd.
    destruct (Nat.eqb_spec a i), (Nat.eqb_spec b j); cbn [andb]; try reflexivity; lia.
Qed.

Lemma store_row_overflow (i j : nat) (toks : list (list ascii)) (g : V3.grid) :
  (j <= V3.col)%nat -> (V3.col - j < length toks)%nat ->
  Forall (fun t => atof (normalize t) <> None) (firstn (V3.col - j) toks) ->
  store_row i j toks g = OutOfBounds i V3.col.
Proof.
  revert j g. induction toks as [|t ts IH]; intros j g Hj Hlen Hparse.
  - simpl in Hlen. lia.
  - cbn [store_row]. destruct (Nat.leb_spec V3.col j).
    + replace j with V3.col by lia. reflexivity.
    + replace (V3.col - j)%nat with (S (V3.col - S j)) in Hparse by lia.
      cbn [firstn] in Hparse. inversion Hparse as [|? ? Ht Hts]; subst.
      destruct (atof (normalize t)) as [v|]; [|contradiction].
      apply IH; [lia | cbn [length] in Hlen; lia | exact Hts].
Qed.

Lemma read_lines_frame (fuel : nat) :
  forall (row i : nat) (file : list ascii) (g g' : V3.grid) (a b : nat),
  read_lines fuel row i file g = Ok g' -> (row <= a \/ V3.col <= b)%nat -> g' a b = g a b.
Proof.
  induction fuel as [|fuel IH]; intros row i file g g' a b Hrl Hab; cbn [read_lines] in Hrl.
  - injection Hrl as <-. reflexivity.
  - destruct (fgets 4098 file) as [[line rest]|]; [|injection Hrl as <-; reflexivity].
    destruct (Nat.ltb_spec i row); [|injection Hrl as <-; reflexivity].
    destruct (store_row i 0 (tokens line) g) as [g1| | |] eqn:Est; try discriminate.
    rewrite (IH _ _ _ _ _ _ _ Hrl Hab).
    apply (store_row_frame _ _ _ _ _ _ _ Est). lia.
Qed.

Lemma row_ok_nonempty (line : list ascii) (vs : list R) :
  row_ok line vs -> (1 <= length line)%nat.
Proof. intros ((l & -> & _) & _). rewrite length_app. simpl. lia. Qed.

Lemma lines_length (lines : list (list ascii)) (vals : list (list R)) :
  Forall2 row_ok lines vals -> (length lines <= length (concat lines))%nat.
Proof.
  induction 1 as [|line vs lines vals Hr _ IH]; [simpl; lia|].
  cbn [concat length]. rewrite length_app. pose proof (row_ok_nonempty _ _ Hr). lia.
Qed.

Lemma read_lines_rows (lines : list (list ascii)) (vals : list (list R)) :
  Forall2 row_ok lines vals ->
  forall (fuel row i : nat) (rest : list ascii) (g : V3.grid),
  (i + length lines <= row)%nat -> (length lines <= fuel)%nat ->
  exists g', (forall a b, g' a b = cells_from i vals g a b) /\
    read_lines fuel row i (concat lines ++ rest) g =
    read_lines (fuel - length lines) row (i + length lines) rest g'.
Proof.
  induction 1 as [|line vs lines vals Hr Hrs IH]; intros fuel row i rest g Hrow Hfuel.
  - exists g. split.
    + intros a b. unfold cells_from. destruct (i <=? a)%nat; [|reflexivity].
      destruct (a - i)%nat; reflexivity.
    + cbn [concat app length]. rewrite Nat.sub_0_r, Nat.add_0_r. reflexivity.
  - destruct Hr as (Hline & Hlen & Hparse). cbn [length] in Hrow, Hfuel.
    destruct fuel as [|fuel]; [lia|].
    destruct (store_row_ok i 0 (tokens line) vs g Hparse) as (g1 & Hst & Hg1); [lia|].
    destruct (IH fuel row (S i) rest g1) as (g2 & Hg2 & Hrl); [lia|lia|].
    exists g2. split.
    + intros a b. rewrite Hg2. unfold cells_from.
      destruct (Nat.leb_spec (S i) a), (Nat.leb_spec i a); try lia.
      * replace (a - i)%nat with (S (a - S i)) by lia. cbn [nth_error].
        assert (Hgg : g1 a b = g a b)
          by (rewrite Hg1; replace (a =? i)%nat with false by (symmetry; apply Nat.eqb_neq; lia);
              reflexivity).
        destruct (nth_error vals (a - S i)) as [vs'|]; [|exact Hgg].
        destruct (nth_error vs' b); [reflexivity|exact Hgg].
      * replace a with i by lia. rewrite Nat.sub_diag. cbn [nth_error].
        rewrite Hg1, Nat.eqb_refl. cbn [andb Nat.leb Nat.add].
        destruct (Nat.ltb_spec b (length vs)).
        -- rewrite Nat.sub_0_r. rewrite (nth_error_nth' vs 0 H1). reflexivity.
        -- rewrite (proj2 (nth_error_None vs b)) by lia. reflexivity.
      * rewrite Hg1. replace (a =? i)%nat with false by (symmetry; apply Nat.eqb_neq; lia).
        reflexivity.
    + cbn [concat]. rewrite <- app_assoc. cbn [read_lines].
      rewrite fgets_line by exact Hline.
      replace (i <? row)%nat with true by (symmetry; apply Nat.ltb_lt; lia).
      rewrite Hst, Hrl. cbn [length]. f_equal; lia.
Qed.

(** A file of at most [row] whole lines, whose tokens all parse and number
    at most [col] per line, fills [data[i][j]] with the [j]-th value of line
    [i] and leaves every other cell as it was. *)
Theorem read_csv_rows (lines : list (list ascii)) (vals : list (list R))
    (row c : nat) (g : V3.grid) :
  Forall2 row_ok lines vals -> (length lines <= row)%nat ->
  exists g', read_csv row c (Some (concat lines)) g = Ok g' /\
             forall a b, g' a b = cells_from 0 vals g a b.
Proof.
  intros H Hrow.
  destruct (read_lines_rows lines vals H (S (length (concat lines))) row 0 [] g)
    as (g' & Hg' & Hrl); [lia | pose proof (lines_length _ _ H); lia |].
  exists g'. split; [|exact Hg']. unfold read_csv.
  replace (read_lines (S (length (concat lines))) row 0 (concat lines) g)
    with (read_lines (S (length (concat lines))) row 0 (concat lines ++ []) g)
    by (rewrite app_nil_r; reflexivity).
  rewrite Hrl. destruct (_ - _)%nat; reflexivity.
Qed.

(** After whole lines that parse, a line with more than [col] tokens whose
    first [col] tokens parse makes [read_csv] write [data[i][col]], one
    past the [col] doubles [main] allocated for the row. *)
Theorem read_csv_too_many_fields (lines : list (list ascii)) (vals : list (list R))
    (bad rest : list ascii) (row c : nat) (g : V3.grid) :
  Forall2 row_ok lines vals -> (length lines < row)%nat -> line_ok bad ->
  (V3.col < length (tokens bad))%nat ->
  Forall (fun t => atof (normalize t) <> None) (firstn V3.col (tokens bad)) ->
  read_csv row c (Some (concat lines ++ bad ++ rest)) g = OutOfBounds (length lines) V3.col.
Proof.
  intros H Hrow Hbad Hlen Hparse. unfold read_csv.
  pose proof (lines_length _ _ H) as Hll.
  destruct (read_lines_rows lines vals H (S (length (concat lines ++ bad ++ rest)))
              row 0 (bad ++ rest) g) as (g' & _ & Hrl);
    [lia | rewrite length_app; lia |].
  rewrite Hrl. rewrite length_app.
  destruct (S (length (concat lines) + length (bad ++ rest)) - length lines)%nat as [|k] eqn:E;
    [lia|].
  cbn [read_lines]. rewrite fgets_line by exact Hbad.
  replace (0 + length lines <? row)%nat with true by (symmetry; apply Nat.ltb_lt; lia).
  rewrite store_row_overflow; [reflexivity | lia | rewrite Nat.sub_0_r; exact Hlen |
    rewrite Nat.sub_0_r; exact Hparse].
Qed.

Lemma tokens_fields_witness :
  tokens ([";"] ++ ["1"] ++ seps [([";"; ";"], ["2"; ","; "5"])] ++ [";"; NL]) =
  [["1"]; ["2"; ","; "5"]].
Proof.
  apply (tokens_fields [";"] ["1"] [([";"; ";"], ["2"; ","; "5"])] [";"; NL]).
  - repeat constructor.
  - split; [discriminate|]. repeat constructor; discriminate.
  - unfold rest_ok. repeat constructor; simpl; try discriminate.
  - discriminate.
  - constructor; [left; reflexivity|]. constructor; [right; reflexivity|]. constructor.
Defined.

Lemma tokens_single_field_witness : tokens ([] ++ ["7"] ++ [NL]) = [["7"; NL]].
Proof.
  apply (tokens_single_field [] ["7"]).
  - constructor.
  - split; [discriminate|]. repeat constructor; discriminate.
Defined.

Lemma atof_decimal_comma_witness :
  atof (normalize (["-"] ++ map digit_char [1%nat] ++ "," :: map digit_char [2%nat; 5%nat] ++ [NL]))
  = Some (-1.25).
Proof.
  rewrite (atof_decimal_comma true [1%nat] [2%nat; 5%nat] [NL]).
  - f_equal. unfold digits_Z. simpl. lra.
  - repeat constructor; lia.
  - right. reflexivity.
Defined.


Ltac eval_tokens :=
  match goal with
  | |- context [tokens ?l] => let t := eval vm_compute in (tokens l) in change (tokens l) with t
  end.

Lemma read_csv_rows_witness :
  exists g', read_csv 140 7 (Some (concat [line1; line2])) zero_grid = Ok g' /\
    forall a b, g' a b = cells_from 0 [[1.5; -2]; [3]] zero_grid a b.
Proof.
  apply read_csv_rows; [|simpl; lia].
  constructor; [|constructor; [|constructor]]; (split; [|split]).
  - exists ["1"; ","; "5"; ";"; "-"; "2"]. split; [reflexivity|].
    split; [repeat constructor; discriminate | simpl; lia].
  - unfold V3.col. simpl. lia.
  - eval_tokens. constructor; [|constructor; [|constructor]]; unfold atof, digits_Z; simpl; f_equal; lra.
  - exists [";"; "3"]. split; [reflexivity|].
    split; [repeat constructor; discriminate | simpl; lia].
  - unfold V3.col. simpl. lia.
  - eval_tokens. constructor; [|constructor]; unfold atof, digits_Z; simpl; f_equal; lra.
Defined.


Lemma read_csv_too_many_fields_witness :
  read_csv 140 7 (Some (concat [] ++ wide_line ++ [])) zero_grid = OutOfBounds 0 7.
Proof.
  apply (read_csv_too_many_fields [] [] wide_line [] 140 7 zero_grid).
  - constructor.
  - unfold V3.col. simpl. lia.
  - exists (removelast wide_line). split; [reflexivity|].
    split; [repeat constructor; discriminate | simpl; lia].
  - eval_tokens. simpl. unfold V3.col. lia.
  - eval_tokens. unfold V3.col. simpl firstn. repeat constructor; discriminate.
Defined.

End CSVFacts.

(** ** Lemmas on the air density *)

Module DensityFacts.

Lemma Psat_pos (T : R) : 0 < Psat T.
Proof. unfold Psat, Rpower. apply Rmult_lt_0_compat; [lra | apply exp_pos]. Qed.

Lemma density_split (T h Rh : R) :
  0 < T + 273.15 ->
  density T h Rh =
  (Pair T h / 287.058 - Psat T * Rh * (1 / 287.058 - 1 / 461.495)) / (T + 273.15).
Proof. intros HT. unfold density, Pd, Pv. field. lra. Qed.

Lemma Rdiv_lt_pos (x y d : R) : 0 < d -> x < y -> x / d < y / d.
Proof. intros Hd H. unfold Rdiv. apply Rmult_lt_compat_r; [apply Rinv_0_lt_compat|]; lra. Qed.

(** For temperatures from -80 to 100 degrees, elevations in [0, 11019.2]
    and humidities in [0, 1], where every intermediate of the C computation
    is a finite, normal double, a higher relative humidity gives a strictly
    lower density (the vapour constant 461.495 exceeds the dry-air
    constant 287.058 and the saturation pressure is positive). *)
Theorem density_decreasing_humidity (T h Rh1 Rh2 : R) :
  -80 <= T <= 100 -> 0 <= h <= 11019.2 -> 0 <= Rh1 -> Rh1 < Rh2 -> Rh2 <= 1 ->
  density T h Rh2 < density T h Rh1.
Proof.
  intros HT Hh HRh1 HRh HRh2. rewrite !density_split by lra.
  apply Rdiv_lt_pos; [lra|].
  pose proof (Psat_pos T). nra.
Qed.

(** For temperatures from -80 to 100 degrees, elevations in [0, 11019.2]
    and humidities in [0, 1], a higher elevation gives a strictly lower
    density. *)
Theorem density_decreasing_elevation (T h1 h2 Rh : R) :
  -80 <= T <= 100 -> 0 <= h1 -> h1 < h2 -> h2 <= 11019.2 -> 0 <= Rh <= 1 ->
  density T h2 Rh < density T h1 Rh.
Proof.
  intros HT Hh1 Hh Hh2 HRh. rewrite !density_split by lra.
  apply Rdiv_lt_pos; [lra|].
  assert (Pair T h2 < Pair T h1); [|lra].
  unfold Pair. apply Rmult_lt_compat_r; [lra|]. apply exp_increasing.
  apply Rdiv_lt_pos; [lra|]. nra.
Qed.

Lemma exp_minus2 : 1 / 9 <= exp (-2).
Proof.
  assert (H2 : exp 2 = exp 1 * exp 1) by (rewrite <- exp_plus; f_equal; lra).
  assert (H1 : exp (-2) * exp 2 = 1) by (rewrite <- exp_plus; replace (-2 + 2) with 0 by lra; apply exp_0).
  pose proof exp_le_3. pose proof (exp_pos 1). pose proof (exp_pos (-2)).
  assert (exp 2 <= 9) by nra.
  apply Rmult_le_reg_r with (exp 2); [apply exp_pos|]. nra.
Qed.

(** For humidities in [0, 1] and elevations in [0, 11019.2] (the supports
    of v2's uniform draws) and temperatures from -80 to 100 degrees, the
    density is positive. *)
Theorem density_pos_sampled (T h Rh : R) :
  -80 <= T <= 100 -> 0 <= h <= 11019.2 -> 0 <= Rh <= 1 -> 0 < density T h Rh.
Proof.
  intros HT Hh HRh. rewrite density_split by lra.
  apply Rdiv_lt_0_compat; [|lra].
  assert (Hy : 7.5 * T / (T + 237.3) <= INR 3).
  { simpl. apply Rmult_le_reg_r with (T + 237.3); [lra|].
    unfold Rdiv. rewrite Rmult_assoc, Rinv_l, Rmult_1_r by lra. lra. }
  assert (HPs : Psat T <= 6.1078 * 10 ^ 3).
  { unfold Psat. replace 10.0 with 10 by lra. rewrite <- Rpower_pow by lra.
    apply Rmult_le_compat_l; [lra|]. apply Rle_Rpower; lra. }
  assert (Hx : -2 <= -9.81 * 0.0289644 * h / (8.31432 * (T + 273.15))).
  { apply Rmult_le_reg_r with (8.31432 * (T + 273.15)); [lra|].
    unfold Rdiv. rewrite Rmult_assoc, Rinv_l, Rmult_1_r by lra. lra. }
  assert (HPa : 101325 / 9 <= Pair T h).
  { unfold Pair. pose proof exp_minus2.
    assert (exp (-2) <= exp (-9.81 * 0.0289644 * h / (8.31432 * (T + 273.15)))).
    { destruct (Rle_lt_or_eq_dec _ _ Hx) as [Hlt | ->]; [|lra].
      left. apply exp_increasing. exact Hlt. }
    lra. }
  pose proof (Psat_pos T).
  assert (0 <= Psat T * Rh <= 6.1078 * 10 ^ 3) by (split; nra).
  simpl in *. lra.
Qed.

(** Below the pole of the saturation-pressure formula at -237.3 degrees
    the exponent [7.5*T/(T+237.3)] is positive and grows without bound.
    For temperatures above absolute zero and at most -250 degrees it lies
    between about 57 and 148, so [pow(10.0, ...)] is a finite double, and
    with a humidity between 1% and 100% the density is negative. *)
Theorem density_negative_below_pole (T h Rh : R) :
  -273.15 < T <= -250 -> 0 <= h -> 1 / 100 <= Rh <= 1 -> density T h Rh < 0.
Proof.
  intros HT Hh [HRh HRh1]. rewrite density_split by lra.
  assert (Hn : (Pair T h / 287.058 - Psat T * Rh * (1 / 287.058 - 1 / 461.495)) < 0).
  2:{ assert (0 < / (T + 273.15)) by (apply Rinv_0_lt_compat; lra).
      unfold Rdiv at 1. nra. }
  assert (Hy : INR 7 <= 7.5 * T / (T + 237.3)).
  { replace (7.5 * T / (T + 237.3)) with ((- (7.5 * T)) / (- (T + 237.3))) by (field; lra).
    simpl. apply Rmult_le_reg_r with (- (T + 237.3)); [lra|].
    unfold Rdiv. rewrite Rmult_assoc, Rinv_l, Rmult_1_r by lra. lra. }
  assert (HPs : 6.1078 * 10 ^ 7 <= Psat T).
  { unfold Psat. replace 10.0 with 10 by lra. rewrite <- Rpower_pow by lra.
    apply Rmult_le_compat_l; [lra|]. apply Rle_Rpower; lra. }
  assert (Hx : -9.81 * 0.0289644 * h / (8.31432 * (T + 273.15)) <= 0).
  { assert (0 < / (8.31432 * (T + 273.15))) by (apply Rinv_0_lt_compat; lra).
    unfold Rdiv. nra. }
  assert (HPa : Pair T h <= 101325).
  { unfold Pair.
    assert (exp (-9.81 * 0.0289644 * h / (8.31432 * (T + 273.15))) <= 1).
    { rewrite <- exp_0. destruct (Rle_lt_or_eq_dec _ _ Hx) as [Hlt | ->]; [|lra].
      left. apply exp_increasing. exact Hlt. }
    pose proof (exp_pos (-9.81 * 0.0289644 * h / (8.31432 * (T + 273.15)))). lra. }
  assert (6.1078 * 10 ^ 7 / 100 <= Psat T * Rh) by nra.
  simpl in *. lra.
Qed.

Lemma density_decreasing_humidity_witness :
  -80 <= 15 <= 100 /\ 0 < 1 /\ density 15 0 1 < density 15 0 0.
Proof.
  split; [lra|]. split; [lra|].
  apply (density_decreasing_humidity 15 0 0 1); lra.
Defined.

Lemma density_decreasing_elevation_witness :
  -80 <= 15 <= 100 /\ 0 < 1000 /\ density 15 1000 0 < density 15 0 0.
Proof.
  split; [lra|]. split; [lra|].
  apply (density_decreasing_elevation 15 0 1000 0); lra.
Defined.

Lemma density_pos_sampled_witness : 0 < density (-80) 11019.2 1.
Proof. apply density_pos_sampled; lra. Defined.

Lemma density_negative_below_pole_witness : density (-250) 0 1 < 0.
Proof. apply density_negative_below_pole; lra. Defined.

End DensityFacts.

(** ** Lemmas on the lift and the velocities *)

Module LiftFacts.

(** In v2, temperature, elevation and humidity enter the lift only through
    the density: for any two inputs, the lifts are in the ratio of the
    densities. *)
Theorem v2_lift_through_density (Rh h T Rh' h' T' : R) (init : out) :
  V2.main Rh h T init * density T' h' Rh' = V2.main Rh' h' T' init * density T h Rh.
Proof.
  unfold V2.main, liftForce. cbv beta zeta delta [V2.loadInputs].
  destruct (vloop _ _ _ _ _) as [x y]. cbn [o_r o_A o_v1 o_v2].
  set (A := 2.3E-1). set (d := 2.0). clearbody A d.
  unfold Rdiv. ring.
Qed.

Lemma v2_zero_start_factor :
  exists K, 0 < K /\ forall Rh h T, V2.main Rh h T out_zero = density T h Rh * K.
Proof.
  unfold V2.main, liftForce. cbv beta zeta delta [V2.loadInputs].
  unfold empiricalPressureCoefficientOverAirfoil, empiricalPressureCoefficientUnderAirfoil.
  rewrite !vloop_sums. cbv beta iota. cbn [o_v1 o_v2 o_r o_A out_zero].
  set (SO := sumL (map (fun i => vterm 30.0 (at_ Cp2 i)) (seq 0 (length Cp2)))).
  set (SU := sumL (map (fun i => vterm 30.0 (at_ Cp1 i)) (seq 0 (length Cp2)))).
  assert (Hlen : length (seq 0 (length Cp2)) = 83%nat) by reflexivity.
  assert (HSO : INR 83 * 30.0 <= SO).
  { unfold SO. rewrite <- Hlen. apply sumL_lower. intros i Hi. apply in_seq in Hi.
    apply vterm_ge; [lra|]. apply (at_Forall _ _ _ Cp2_nonpos). lia. }
  assert (HSU : SU <= INR 83 * 30.0).
  { unfold SU. rewrite <- Hlen. apply sumL_upper. intros i Hi. apply in_seq in Hi.
    apply vterm_le; [lra|]. apply (at_Forall _ _ _ Cp1_range).
    change (length Cp1) with 84%nat. change (length Cp2) with 83%nat in Hi. lia. }
  assert (HSU0 : INR 83 * 0 <= SU).
  { unfold SU. rewrite <- Hlen. apply sumL_lower. intros i Hi. apply in_seq in Hi.
    apply vterm_le; [lra|]. apply (at_Forall _ _ _ Cp1_range).
    change (length Cp1) with 84%nat. change (length Cp2) with 83%nat in Hi. lia. }
  unfold len. change (length Cp1) with 84%nat. change (length Cp2) with 83%nat.
  rewrite !INR_lit in *. change (Z.of_nat 83) with 83%Z in *. change (Z.of_nat 84) with 84%Z.
  set (o := (0 + SO) / 83). set (u := (0 + SU) / 84).
  assert (Ho : 30 <= o) by (unfold o; apply Rmult_le_reg_r with 83; [lra|];
                          unfold Rdiv; rewrite Rmult_assoc, Rinv_l, Rmult_1_r; lra).
  assert (Hu : 0 <= u <= 30 * 83 / 84) by (unfold u; split; unfold Rdiv;
    apply Rmult_le_reg_r with 84; try lra; rewrite Rmult_assoc, Rinv_l, Rmult_1_r; lra).
  exists (2.3E-1 * (o ^ 2 - u ^ 2) / 2.0). split.
  - apply Rdiv_lt_0_compat; [|lra]. apply Rmult_lt_0_compat; [lra|]. simpl. nra.
  - intros Rh h T. unfold Rdiv. rewrite !Rmult_assoc. reflexivity.
Qed.

(** Started from zeroed outputs, v2's lift is positive exactly when the
    density is positive: the over-surface velocity always exceeds the
    under-surface one. *)
Theorem v2_lift_sign (Rh h T : R) :
  0 < V2.main Rh h T out_zero <-> 0 < density T h Rh.
Proof.
  destruct v2_zero_start_factor as (K & HK & HF). rewrite HF.
  split; intros H; [|nra].
  destruct (Rlt_or_le 0 (density T h Rh)) as [Hd | Hd]; [exact Hd|]. nra.
Qed.

Lemma skipn_nth_cons (E : list R) (k : nat) :
  (k < length E)%nat -> skipn k E = at_ E k :: skipn (S k) E.
Proof.
  revert k. induction E as [|x E IH]; intros k Hk; [simpl in Hk; lia|].
  destruct k as [|k]; [reflexivity|].
  cbn [skipn]. unfold at_. cbn [nth]. apply IH. simpl in Hk. lia.
Qed.

Lemma map_at_seq (f : R -> R) (E : list R) (n : nat) :
  forall k, (k + n <= length E)%nat ->
  map (fun i => f (at_ E (k + i))) (seq 0 n) = map f (firstn n (skipn k E)).
Proof.
  induction n as [|n IH]; intros k Hk; [reflexivity|].
  rewrite (skipn_nth_cons E k) by lia.
  cbn [seq map firstn]. rewrite Nat.add_0_r. f_equal.
  rewrite <- seq_shift, map_map.
  rewrite (map_ext _ (fun i => f (at_ E (S k + i)))) by (intros; f_equal; f_equal; lia).
  apply IH. lia.
Qed.

(** In v3, for an array of [totalLength] coefficients, each velocity is
    the initial contents over 278 plus half the average of the surface's
    velocity terms: over positions 0..138 for [v1], 139..277 for [v2]. *)
Theorem v3_velocity_half_average (E : list R) (o : out) :
  length E = V3.totalLength ->
  o_v1 (V3.loadInputs E o) = o_v1 o / 278 + spec_average 30.0 (firstn (V3.row - 1) E) / 2 /\
  o_v2 (V3.loadInputs E o) = o_v2 o / 278 + spec_average 30.0 (skipn (V3.row - 1) E) / 2.
Proof.
  intros HE. cbv beta zeta delta [V3.loadInputs].
  rewrite vloop_sums. cbv beta iota. cbn [o_v1 o_v2].
  rewrite HE. change (V3.totalLength / 2)%nat with 139%nat. change (V3.row - 1)%nat with 139%nat.
  change (map (fun i => vterm 30.0 (at_ E i)) (seq 0 139))
    with (map (fun i => vterm 30.0 (at_ E (0 + i))) (seq 0 139)).
  rewrite (map_at_seq (vterm 30.0) E 139 0) by (rewrite HE; unfold V3.totalLength, V3.row; lia).
  rewrite (map_at_seq (vterm 30.0) E 139 139) by (rewrite HE; unfold V3.totalLength, V3.row; lia).
  change (skipn 0 E) with E.
  rewrite (firstn_all2 (n := 139%nat) (skipn 139 E))
    by (rewrite length_skipn, HE; unfold V3.totalLength, V3.row; lia).
  unfold spec_average, len.
  rewrite length_firstn, length_skipn, HE. unfold V3.totalLength, V3.row.
  change (Nat.min 139 ((140 - 1) * 2)) with 139%nat. change ((140 - 1) * 2 - 139)%nat with 139%nat.
  change ((140 - 1) * 2)%nat with 278%nat.
  rewrite !INR_lit. simpl Z.of_nat.
  split; field.
Qed.

Lemma v3_velocity_half_average_witness :
  o_v1 (V3.loadInputs (repeat 0 V3.totalLength) out_zero) =
    0 / 278 + spec_average 30.0 (firstn (V3.row - 1) (repeat 0 V3.totalLength)) / 2.
Proof.
  apply (v3_velocity_half_average (repeat 0 V3.totalLength) out_zero).
  apply repeat_length.
Defined.

Lemma builder_positions_witness :
  nth 0 (V3.empiricalPressureCoefficients column_grid) (Empirical []) =
  Empirical [column_grid 1%nat 1%nat; column_grid 1%nat 2%nat; column_grid 1%nat 3%nat].
Proof. apply (builder_positions column_grid 0). unfold V3.totalLength, V3.row. lia. Defined.

End LiftFacts.
